(** * SDCC compiler mixin of meson: a shallow embedding and its properties

    Source: [mesonbuild/compilers/mixins/sdcc.py], class [SdccCompiler].

    Layout of the development:
    - [PyStr]: the few operations of Python's [str] the mixin uses
      (slices, [startswith], [endswith], [split], [join], [rsplit]);
    - [posixpath]: [os.path.join] and [os.path.normpath] as CPython's
      [posixpath] module defines them (the mixin only calls them);
    - [Py]: exceptions and results;
    - [Sdcc]: the class itself: flag tables, argument synthesis, the
      in-place path rewriter over a store of list objects, and the sanity
      check as a computation that logs every call to the outside world. *)

From stdpp Require Import gmap strings list fin_maps.
From Stdlib Require Import Ascii ZArith Lia.

Local Open Scope Z_scope.
Local Open Scope nat_scope.

(* ===================================================================== *)
(** ** Python strings *)
(* ===================================================================== *)

Module PyStr.

(** [s[:n]] *)
Fixpoint take (n : nat) (s : string) : string :=
  match n, s with
  | S n', String c s' => String c (take n' s')
  | _, _ => ""
  end.

(** [s[n:]] *)
Fixpoint drop (n : nat) (s : string) : string :=
  match n, s with
  | S n', String c s' => drop n' s'
  | _, _ => s
  end.

(** [s.startswith(p)] *)
Fixpoint startswith (p s : string) : bool :=
  match p, s with
  | "", _ => true
  | String a p', String b s' => bool_decide (a = b) && startswith p' s'
  | String _ _, "" => false
  end.

(** [s.endswith(sep)] for a one-character [sep] *)
Fixpoint endswith (sep : ascii) (s : string) : bool :=
  match s with
  | "" => false
  | String c "" => bool_decide (c = sep)
  | String _ s' => endswith sep s'
  end.

(** [sep * n] for a one-character [sep] *)
Fixpoint replicate (n : nat) (sep : ascii) : string :=
  match n with
  | 0 => ""
  | S n' => String sep (replicate n' sep)
  end.

(** [s.split(sep)] for a one-character [sep]: never empty, one more
    field than there are separators. *)
Fixpoint split (sep : ascii) (s : string) : list string :=
  match s with
  | "" => [""]
  | String c s' =>
      if bool_decide (c = sep) then "" :: split sep s'
      else match split sep s' with
           | [] => [String c ""]
           | w :: ws => String c w :: ws
           end
  end.

(** [sep.join(comps)] for a one-character [sep] *)
Fixpoint join (sep : ascii) (comps : list string) : string :=
  match comps with
  | [] => ""
  | [w] => w
  | w :: ws => w +:+ String sep (join sep ws)
  end.

(** [s.rsplit(sep, 1)]: split once, at the last separator. *)
Definition rsplit1 (sep : ascii) (s : string) : list string :=
  match split sep s with
  | [] | [_] => [s]
  | comps => [join sep (removelast comps); List.last comps ""]
  end.

(** [sep in s] for a one-character [sep] *)
Fixpoint contains (sep : ascii) (s : string) : bool :=
  match s with
  | "" => false
  | String c s' => bool_decide (c = sep) || contains sep s'
  end.

(** [str(b)] for a [bool] *)
Definition of_bool (b : bool) : string := if b then "True" else "False".

End PyStr.

(* ===================================================================== *)
(** ** [os.path] on POSIX *)
(* ===================================================================== *)

Module posixpath.

Definition sep : ascii := "/"%char.

(** [os.path.join(a, b)] with one extra component:
<<
    if b.startswith(sep):                path = b
    elif not path or path.endswith(sep): path += b
    else:                                path += sep + b
>> *)
Definition join (a b : string) : string :=
  if PyStr.startswith "/" b then b
  else if bool_decide (a = "") || PyStr.endswith sep a then a +:+ b
  else a +:+ String sep b.

(** The value of [initial_slashes] after the two tests at the top of
    [normpath]: [False], [True] or [2]. *)
Definition initial_slashes (path : string) : nat :=
  if PyStr.startswith "/" path then
    if PyStr.startswith "//" path && negb (PyStr.startswith "///" path)
    then 2 else 1
  else 0.

(** One round of the loop [for comp in comps] of [normpath]. *)
Definition normpath_step (slashes : nat) (new_comps : list string)
    (comp : string) : list string :=
  if bool_decide (comp = "") || bool_decide (comp = ".") then new_comps
  else if negb (bool_decide (comp = ".."))
          || (bool_decide (slashes = 0) && bool_decide (new_comps = []))
          || (negb (bool_decide (new_comps = []))
              && bool_decide (List.last new_comps "" = ".."))
  then new_comps ++ [comp]
  else if negb (bool_decide (new_comps = [])) then removelast new_comps
  else new_comps.

(** [os.path.normpath(path)] *)
Definition normpath (path : string) : string :=
  if bool_decide (path = "") then "."
  else
    let slashes := initial_slashes path in
    let comps := PyStr.split sep path in
    let new_comps := foldl (normpath_step slashes) [] comps in
    let path := PyStr.join sep new_comps in
    let path := if bool_decide (slashes = 0) then path
                else PyStr.replicate slashes sep +:+ path in
    if bool_decide (path = "") then "." else path.

(** The components the loop of [normpath] ends with. *)
Definition norm_comps (path : string) : list string :=
  foldl (normpath_step (initial_slashes path)) [] (PyStr.split sep path).

(** The last three statements of [normpath]: joining the components,
    putting the initial slashes back, [path or dot]. *)
Definition assemble (slashes : nat) (comps : list string) : string :=
  let path := PyStr.join sep comps in
  let path := if bool_decide (slashes = 0) then path
              else PyStr.replicate slashes sep +:+ path in
  if bool_decide (path = "") then "." else path.

(** Component lists the loop of [normpath] rebuilds as they are: every
    component, met after the ones before it, is appended. *)
Definition stable (slashes : nat) (comps : list string) : Prop :=
  forall pre comp suf,
    comps = pre ++ comp :: suf ->
    normpath_step slashes pre comp = pre ++ [comp].

(** [os.path.isabs(path)] *)
Definition isabs (path : string) : bool := PyStr.startswith "/" path.

End posixpath.

(* ===================================================================== *)
(** ** Exceptions and results *)
(* ===================================================================== *)

Module Py.

(** The exception classes the mixin raises or lets through; each carries
    the argument it was built with. *)
Inductive exn : Type :=
| EnvironmentException (msg : string)
| KeyError (key : string)
| NotImplementedError (msg : string)
| OSError (msg : string).

(** A call either returns a value or raises. *)
Inductive result (A : Type) : Type :=
| Ok (a : A)
| Raise (e : exn).
Global Arguments Ok {A} a.
Global Arguments Raise {A} e.

Definition is_ok {A} (r : result A) : bool :=
  match r with Ok _ => true | Raise _ => false end.

(** [d[k]] on a [dict]: [KeyError(k)] when the key is missing. [show]
    gives the key as the exception records it. *)
Definition getitem {K V} `{Countable K} (show : K -> string)
    (d : gmap K V) (k : K) : result V :=
  match d !! k with
  | Some v => Ok v
  | None => Raise (KeyError (show k))
  end.

End Py.

(* ===================================================================== *)
(** ** The class [SdccCompiler] *)
(* ===================================================================== *)

Module Sdcc.
Import Py.

Definition id : string := "sdcc".

(** *** Flag tables (class attributes) *)

Definition BUILDTYPE_ARGS : gmap string (list string) :=
  list_to_map
    [ ("plain", []); ("debug", []); ("debugoptimized", []);
      ("release", []); ("minsize", []); ("custom", []) ].

Definition OPTIMIZATION_ARGS : gmap string (list string) :=
  list_to_map
    [ ("plain", []); ("0", []); ("g", []);
      ("1", ["--opt-code-speed"]); ("2", ["--opt-code-speed"]);
      ("3", ["--opt-code-speed"]); ("s", ["--opt-code-size"]) ].

Definition DEBUG_ARGS : gmap bool (list string) :=
  list_to_map [ (false, []); (true, ["--debug"]) ].

(** *** The instance *)

(** [CompileCheckMode] of [mesonbuild.compilers.compilers]. *)
Inductive CompileCheckMode : Type := PREPROCESS | COMPILE | LINK.

(** The execution wrapper, an [ExternalProgram]: only [get_command()]
    is used. *)
Record ExternalProgram : Type := { get_command : list string }.

(** [OptionKey(o)] with every other field at its default. *)
Definition OptionKey (o : string) : string := o.

(** The attributes of [self] that the mixin reads or writes. All but
    [base_options] are set by the base class before [__init__] runs. *)
Record SdccCompiler : Type := {
  is_cross : bool;
  exe_wrapper : option ExternalProgram;
  exelist : list string;
  language : string;
  base_options : gset string
}.

Definition set_base_options (self : SdccCompiler) (v : gset string)
    : SdccCompiler :=
  {| is_cross := is_cross self; exe_wrapper := exe_wrapper self;
     exelist := exelist self; language := language self;
     base_options := v |}.

(** [SdccCompiler.__init__] *)
Definition __init__ (self : SdccCompiler) : result SdccCompiler :=
  if negb (is_cross self) then
    Raise (EnvironmentException "sdcc supports only cross-compilation.")
  else
    Ok (set_base_options self (list_to_set (OptionKey <$> ["b_ndebug"]))).

(** *** Argument synthesis *)

Definition get_always_args : list string := [].
Definition get_no_stdinc_args : list string := ["--nostdinc"].
Definition get_no_stdlib_link_args : list string := ["--nostdlib"].

Definition get_buildtype_args (buildtype : string) : result (list string) :=
  getitem (fun k => k) BUILDTYPE_ARGS buildtype.

Definition get_include_args (path : string) (is_system : bool)
    : list string :=
  let path := if bool_decide (path = "") then "." else path in
  ["-I" +:+ path].

Definition get_pic_args : list string := [].
Definition get_preprocess_only_args : list string := ["-E"].
Definition get_largefile_args : list string := [].
Definition get_werror_args : list string := ["--Werror"].
Definition get_warn_args (level : string) : list string := [].

Definition get_optimization_args (optimization_level : string)
    : result (list string) :=
  getitem (fun k => k) OPTIMIZATION_ARGS optimization_level.

Definition get_no_optimization_args : list string := [].

Definition get_debug_args (is_debug : bool) : result (list string) :=
  getitem PyStr.of_bool DEBUG_ARGS is_debug.

Definition get_no_warn_args : list string := [].

(** *** The path rewriter

    A Python list is an object: the caller and the callee hold the same
    one. The store maps a reference to the current contents of the list
    it denotes. *)

Abbreviation loc := positive.
Abbreviation store := (gmap positive (list string)).

(** [i[:2] == '-I' or i[:2] == '-L'] *)
Definition is_path_arg (i : string) : bool :=
  bool_decide (PyStr.take 2 i = "-I") || bool_decide (PyStr.take 2 i = "-L").

(** [i[:2] + os.path.normpath(os.path.join(build_dir, i[2:]))] *)
Definition absolute_arg (build_dir i : string) : string :=
  PyStr.take 2 i
  +:+ posixpath.normpath (posixpath.join build_dir (PyStr.drop 2 i)).

(** What the body of the loop leaves at the place of the token [i]. *)
Definition rewritten (build_dir i : string) : string :=
  if is_path_arg i then absolute_arg build_dir i else i.

(** The loop [for idx, i in enumerate(parameter_list)]: the iterator
    reads the live list at [idx] and stops when [idx] is past its end;
    the body assigns [parameter_list[idx]] in the store. [fuel] bounds
    the number of rounds. *)
Fixpoint rewrite_loop (fuel : nat) (build_dir : string)
    (parameter_list : loc) (idx : nat) (h : store) : store :=
  match fuel with
  | 0 => h
  | S fuel' =>
      match (h !!! parameter_list) !! idx with
      | None => h
      | Some i =>
          let h' :=
            if is_path_arg i then
              <[parameter_list :=
                  <[idx := absolute_arg build_dir i]> (h !!! parameter_list)]> h
            else h in
          rewrite_loop fuel' build_dir parameter_list (S idx) h'
      end
  end.

(** [compute_parameters_with_absolute_paths]: the reference returned and
    the store after the call. *)
Definition compute_parameters_with_absolute_paths
    (parameter_list : loc) (build_dir : string) (h : store)
    : loc * store :=
  (parameter_list,
   rewrite_loop (length (h !!! parameter_list)) build_dir
     parameter_list 0 h).

(** *** The sanity check *)

(** What [subprocess.run] did: it raised an [Exception] [e] (with
    [str(e)] recorded), or the child ran and exited. *)
Inductive run_outcome : Type :=
| RunRaised (str_e : string)
| RunCompleted (returncode : Z).

(** The outside world, as the answers it gives to the three calls that
    leave the process. *)
Record world : Type := {
  os_write : string -> string -> result unit;
  os_Popen_safe : list string -> string -> result (Z * string * string);
  os_run : list string -> run_outcome
}.

(** Every call to the outside, with the answer it got. *)
Inductive event : Type :=
| mlog_debug (args : list string)
| open_write (path text : string) (r : result unit)
| Popen_safe (cmdlist : list string) (cwd : string)
    (r : result (Z * string * string))
| subprocess_run (cmdlist : list string) (r : run_outcome).

(** Computations that talk to the world: the result and the calls made,
    oldest first. An exception ends the computation. *)
Definition M (A : Type) : Type := world -> result A * list event.

Definition ret {A} (a : A) : M A := fun _ => (Ok a, []).

Definition raise {A} (e : exn) : M A := fun _ => (Raise e, []).

Definition bind {A B} (m : M A) (f : A -> M B) : M B :=
  fun w =>
    match m w with
    | (Ok a, t) => let '(r, t') := f a w in (r, t ++ t')
    | (Raise e, t) => (Raise e, t)
    end.

Notation "x <- m ;; k" := (bind m (fun x => k))
  (at level 100, m at next level, right associativity).
Notation "m ;; k" := (bind m (fun _ => k))
  (at level 100, right associativity).

Definition debug (args : list string) : M unit :=
  fun _ => (Ok tt, [mlog_debug args]).

Definition write_file (path text : string) : M unit :=
  fun w => let r := os_write w path text in (r, [open_write path text r]).

Definition call_Popen_safe (cmdlist : list string) (cwd : string)
    : M (Z * string * string) :=
  fun w =>
    let r := os_Popen_safe w cmdlist cwd in (r, [Popen_safe cmdlist cwd r]).

Definition call_subprocess_run (cmdlist : list string) : M run_outcome :=
  fun w => let r := os_run w cmdlist in (Ok r, [subprocess_run cmdlist r]).

(** The methods and helpers [_sanity_check_impl] calls that live in the
    base class [Compiler] and in [mesonlib], outside this file. *)
Record Base (Environment : Type) : Type := {
  get_display_language : SdccCompiler -> string;
  name_string : SdccCompiler -> string;
  get_output_args : SdccCompiler -> string -> list string;
  linker_to_compiler_args : SdccCompiler -> list string -> list string;
  _get_basic_compiler_args :
    SdccCompiler -> Environment -> CompileCheckMode ->
    list string * list string;
  join_args : list string -> string
}.
Global Arguments get_display_language {Environment}.
Global Arguments name_string {Environment}.
Global Arguments get_output_args {Environment}.
Global Arguments linker_to_compiler_args {Environment}.
Global Arguments _get_basic_compiler_args {Environment}.
Global Arguments join_args {Environment}.

Section SanityCheck.
Context {Environment : Type} (base : Base Environment).

(** [SdccCompiler._sanity_check_impl] *)
Definition _sanity_check_impl (self : SdccCompiler) (work_dir : string)
    (environment : Environment) (sname code : string) : M unit :=
  debug ["Sanity testing " +:+ get_display_language base self
         +:+ " compiler:"; join_args base (exelist self)] ;;
  debug ["Is cross compiler: " +:+ PyStr.of_bool (is_cross self) +:+ "."] ;;
  let source_name := posixpath.join work_dir sname in
  let binname := hd "" (PyStr.rsplit1 "."%char sname) in
  let mode := LINK in
  let '(binname, mode) :=
    if is_cross self then
      let binname := binname +:+ "_cross" in
      match exe_wrapper self with
      | None => (binname, COMPILE)
      | Some _ => (binname, mode)
      end
    else (binname, mode) in
  let '(cargs, largs) :=
    _get_basic_compiler_args base self environment mode in
  let extra_flags := cargs ++ linker_to_compiler_args base self largs in
  let binname := binname +:+ ".out" in
  let binary_name := posixpath.join work_dir binname in
  write_file source_name code ;;
  let cmdlist :=
    exelist self ++ [sname] ++ get_output_args base self binname
    ++ extra_flags in
  out <- call_Popen_safe cmdlist work_dir ;;
  let '(returncode, stdo, stde) := out in
  debug ["Sanity check compiler command line:"; join_args base cmdlist] ;;
  debug ["Sanity check compile stdout:"] ;;
  debug [stdo] ;;
  debug ["-----" +:+ String "010"%char "Sanity check compile stderr:"] ;;
  debug [stde] ;;
  debug ["-----"] ;;
  if negb (returncode =? 0)%Z then
    raise (EnvironmentException
             ("Compiler " +:+ name_string base self
              +:+ " cannot compile programs."))
  else
    (* [None]: the early [return] of the cross branch *)
    let run_cmd :=
      if is_cross self then
        match exe_wrapper self with
        | None => None
        | Some wrapper => Some (get_command wrapper ++ [binary_name])
        end
      else Some [binary_name] in
    match run_cmd with
    | None => ret tt
    | Some cmdlist =>
        debug ["Running test binary command: "; join_args base cmdlist] ;;
        pe <- call_subprocess_run cmdlist ;;
        match pe with
        | RunRaised str_e =>
            raise (EnvironmentException
                     ("Could not invoke sanity test executable: "
                      +:+ str_e +:+ "."))
        | RunCompleted returncode =>
            if negb (returncode =? 0)%Z then
              raise (EnvironmentException
                       ("Executables created by " +:+ language self
                        +:+ " compiler " +:+ name_string base self
                        +:+ " are not runnable."))
            else ret tt
        end
    end.

End SanityCheck.

(** [subprocess.run] was called somewhere in the trace: the probe was
    run, or the attempt to launch it failed. *)
Definition run_attempted (tr : list event) : Prop :=
  exists cmdlist o, subprocess_run cmdlist o ∈ tr.

(** The three kinds of call that leave the process, told apart. *)
Definition is_open_write (ev : event) : bool :=
  match ev with open_write _ _ _ => true | _ => false end.

Definition is_Popen_safe (ev : event) : bool :=
  match ev with Popen_safe _ _ _ => true | _ => false end.

Definition is_subprocess_run (ev : event) : bool :=
  match ev with subprocess_run _ _ => true | _ => false end.

End Sdcc.

(* ===================================================================== *)
(** ** Sample objects, for evaluating the definitions *)
(* ===================================================================== *)

Module Samples.
Import Py Sdcc.

(** A stand-in for the base class: [-o name] as output arguments, [-c]
    as the only compile-only argument, quoting by joining with spaces. *)
Definition base : Base unit := {|
  get_display_language := fun _ => "C";
  name_string := fun self => PyStr.join " "%char (exelist self);
  get_output_args := fun _ outputname => ["-o"; outputname];
  linker_to_compiler_args := fun _ largs => largs;
  _get_basic_compiler_args := fun _ _ mode =>
    match mode with
    | COMPILE => (["-c"], [])
    | _ => ([], ["--nostdlib"])
    end;
  join_args := PyStr.join " "%char
|}.

Definition cross_no_wrapper : SdccCompiler :=
  {| is_cross := true; exe_wrapper := None; exelist := ["sdcc"];
     language := "c"; base_options := ∅ |}.

Definition cross_with_wrapper : SdccCompiler :=
  {| is_cross := true; exe_wrapper := Some {| get_command := ["ucsim"] |};
     exelist := ["sdcc"]; language := "c"; base_options := ∅ |}.

Definition native : SdccCompiler :=
  {| is_cross := false; exe_wrapper := None; exelist := ["sdcc"];
     language := "c"; base_options := ∅ |}.

(** A world where the compiler exits with [rc] and running the probe
    gives [o]. *)
Definition world_of (rc : Z) (o : run_outcome) : world :=
  {| os_write := fun _ _ => Ok tt;
     os_Popen_safe := fun _ _ => Ok (rc, "", "");
     os_run := fun _ => o |}.

(** A world where the probe source cannot be written. *)
Definition world_read_only : world :=
  {| os_write := fun _ _ => Raise (OSError "[Errno 30] Read-only file system");
     os_Popen_safe := fun _ _ => Ok (0%Z, "", "");
     os_run := fun _ => RunCompleted 0 |}.

(** A world where the compiler cannot be started. *)
Definition world_no_compiler : world :=
  {| os_write := fun _ _ => Ok tt;
     os_Popen_safe := fun _ _ =>
       Raise (OSError "[Errno 2] No such file or directory: 'sdcc'");
     os_run := fun _ => RunCompleted 0 |}.

Definition check (self : SdccCompiler) (w : world)
    : result unit * list event :=
  _sanity_check_impl base self "/tmp/w" tt "sanitycheckc.c" "int main;" w.

End Samples.

(* ===================================================================== *)
(** ** Sample evaluations *)
(* ===================================================================== *)

Example normpath_ex1 : posixpath.normpath "/b/./x//../y/" = "/b/y".
Proof. vm_compute. reflexivity. Qed.
Example normpath_ex2 : posixpath.normpath "//a/../../b" = "//b".
Proof. vm_compute. reflexivity. Qed.
Example normpath_ex3 : posixpath.normpath "a/../../b/.." = "..".
Proof. vm_compute. reflexivity. Qed.
Example normpath_ex4 : posixpath.normpath "///a" = "/a".
Proof. vm_compute. reflexivity. Qed.
Example rsplit_ex1 : PyStr.rsplit1 "."%char "sanitycheckc.c" = ["sanitycheckc"; "c"].
Proof. vm_compute. reflexivity. Qed.
Example rsplit_ex2 : PyStr.rsplit1 "."%char "a.b.c" = ["a.b"; "c"].
Proof. vm_compute. reflexivity. Qed.
Example rsplit_ex3 : PyStr.rsplit1 "."%char "abc" = ["abc"].
Proof. vm_compute. reflexivity. Qed.

Example check_ex1 :
  Samples.check Samples.cross_no_wrapper
    (Samples.world_of 0 (Sdcc.RunCompleted 0))
  = (Py.Ok tt,
     [ Sdcc.mlog_debug ["Sanity testing C compiler:"; "sdcc"];
       Sdcc.mlog_debug ["Is cross compiler: True."];
       Sdcc.open_write "/tmp/w/sanitycheckc.c" "int main;" (Py.Ok tt);
       Sdcc.Popen_safe
         ["sdcc"; "sanitycheckc.c"; "-o"; "sanitycheckc_cross.out"; "-c"]
         "/tmp/w" (Py.Ok (0%Z, "", ""));
       Sdcc.mlog_debug
         ["Sanity check compiler command line:";
          "sdcc sanitycheckc.c -o sanitycheckc_cross.out -c"];
       Sdcc.mlog_debug ["Sanity check compile stdout:"];
       Sdcc.mlog_debug [""];
       Sdcc.mlog_debug
         ["-----" +:+ String "010"%char "Sanity check compile stderr:"];
       Sdcc.mlog_debug [""];
       Sdcc.mlog_debug ["-----"] ]).
Proof. vm_compute. reflexivity. Qed.

Example check_ex2 :
  fst (Samples.check Samples.cross_with_wrapper
         (Samples.world_of 0 (Sdcc.RunCompleted 3)))
  = Py.Raise (Py.EnvironmentException
      "Executables created by c compiler sdcc are not runnable.").
Proof. vm_compute. reflexivity. Qed.

(* ===================================================================== *)
(** ** Flag tables and argument synthesis *)
(* ===================================================================== *)

Section FlagTables.
Import Py Sdcc.

Lemma getitem_Some {K V} `{Countable K} (show : K -> string)
    (d : gmap K V) (k : K) (v : V) :
  d !! k = Some v -> getitem show d k = Ok v.
Proof. intros Hk. unfold getitem. by rewrite Hk. Qed.

Lemma getitem_None {K V} `{Countable K} (show : K -> string)
    (d : gmap K V) (k : K) :
  d !! k = None -> getitem show d k = Raise (KeyError (show k)).
Proof. intros Hk. unfold getitem. by rewrite Hk. Qed.

Lemma OPTIMIZATION_ARGS_dom :
  dom OPTIMIZATION_ARGS
  = list_to_set ["plain"; "0"; "g"; "1"; "2"; "3"; "s"].
Proof.
  unfold OPTIMIZATION_ARGS. cbn [list_to_map foldr uncurry].
  rewrite !dom_insert_L, dom_empty_L. cbn [list_to_set foldr]. done.
Qed.

Lemma OPTIMIZATION_ARGS_unmapped (level : string) :
  level ∉ ["plain"; "0"; "g"; "1"; "2"; "3"; "s"] ->
  OPTIMIZATION_ARGS !! level = None.
Proof.
  intros Hout. apply not_elem_of_dom. rewrite OPTIMIZATION_ARGS_dom.
  by rewrite elem_of_list_to_set.
Qed.

(** C7. [get_optimization_args] gives no flag for the levels [plain],
    [0] and [g], the speed flag alone for [1], [2] and [3], the size
    flag alone for [s], and raises [KeyError] for every other level. *)
Theorem get_optimization_args_spec :
  (forall level, level ∈ ["plain"; "0"; "g"] ->
     get_optimization_args level = Ok [])
  /\ (forall level, level ∈ ["1"; "2"; "3"] ->
     get_optimization_args level = Ok ["--opt-code-speed"])
  /\ get_optimization_args "s" = Ok ["--opt-code-size"]
  /\ (forall level, level ∉ ["plain"; "0"; "g"; "1"; "2"; "3"; "s"] ->
     get_optimization_args level = Raise (KeyError level)).
Proof.
  repeat split.
  - intros level Hin. repeat (apply elem_of_cons in Hin as [->|Hin]);
      [reflexivity .. | by apply elem_of_nil in Hin].
  - intros level Hin. repeat (apply elem_of_cons in Hin as [->|Hin]);
      [reflexivity .. | by apply elem_of_nil in Hin].
  - intros level Hout. unfold get_optimization_args.
    by apply getitem_None, OPTIMIZATION_ARGS_unmapped.
Qed.

Lemma get_optimization_args_witness :
  ("plain" ∈ ["plain"; "0"; "g"]
   /\ get_optimization_args "plain" = Ok [])
  /\ ("2" ∈ ["1"; "2"; "3"]
   /\ get_optimization_args "2" = Ok ["--opt-code-speed"])
  /\ (("fast" ∉ ["plain"; "0"; "g"; "1"; "2"; "3"; "s"])
   /\ get_optimization_args "fast" = Raise (KeyError "fast")).
Proof.
  destruct get_optimization_args_spec as (Hnone & Hspeed & _ & Hother).
  assert (H1 : "plain" ∈ ["plain"; "0"; "g"]) by left.
  assert (H2 : "2" ∈ ["1"; "2"; "3"]) by (right; left).
  assert (H3 : "fast" ∉ ["plain"; "0"; "g"; "1"; "2"; "3"; "s"]).
  { intros Hin. repeat (apply elem_of_cons in Hin as [Hin|Hin];
      [discriminate Hin|]). by apply elem_of_nil in Hin. }
  split; [|split].
  - split; [exact H1 | exact (Hnone _ H1)].
  - split; [exact H2 | exact (Hspeed _ H2)].
  - split; [exact H3 | exact (Hother _ H3)].
Defined.

(** C8. [get_debug_args(False)] is the empty list and
    [get_debug_args(True)] is the one-token list [--debug]. *)
Theorem get_debug_args_spec :
  get_debug_args false = Ok [] /\ get_debug_args true = Ok ["--debug"].
Proof. split; reflexivity. Qed.

(** C9. [get_include_args(p, is_system)] is the single token [-I] + [p];
    the empty path counts as [.]; [is_system] plays no part. *)
Theorem get_include_args_spec (path : string) (is_system : bool) :
  (path <> "" -> get_include_args path is_system = ["-I" +:+ path])
  /\ get_include_args "" is_system = ["-I."]
  /\ get_include_args path is_system = get_include_args path (negb is_system).
Proof.
  repeat split.
  intros Hne. unfold get_include_args. by rewrite bool_decide_eq_false_2.
Qed.

Lemma get_include_args_witness :
  "inc/hw" <> ""
  /\ get_include_args "inc/hw" true = ["-Iinc/hw"]
  /\ get_include_args "" true = ["-I."]
  /\ get_include_args "inc/hw" true = get_include_args "inc/hw" false.
Proof.
  assert (Hne : "inc/hw" <> "") by discriminate.
  destruct (get_include_args_spec "inc/hw" true) as (H1 & H2 & H3).
  split; [exact Hne|]. split; [exact (H1 Hne)|]. split; [exact H2 | exact H3].
Defined.

(** C6. Construction for a native toolchain raises
    [EnvironmentException]; construction succeeds exactly when
    [is_cross] holds, and then only [base_options] is set. *)
Theorem init_requires_cross (self : SdccCompiler) :
  (is_cross self = false ->
     __init__ self
     = Raise (EnvironmentException "sdcc supports only cross-compilation."))
  /\ (is_cross self = true ->
     __init__ self = Ok (set_base_options self {[ "b_ndebug" ]}))
  /\ (is_ok (__init__ self) = true <-> is_cross self = true).
Proof.
  unfold __init__. destruct (is_cross self); cbn.
  - split; [discriminate|]. split; [|done].
    intros _. unfold OptionKey. by rewrite (right_id_L ∅ (∪)).
  - split; [done|]. split; [discriminate|]. split; discriminate.
Qed.

Lemma init_requires_cross_witness :
  (is_cross Samples.native = false
   /\ __init__ Samples.native
      = Raise (EnvironmentException "sdcc supports only cross-compilation."))
  /\ (is_cross Samples.cross_no_wrapper = true
   /\ is_ok (__init__ Samples.cross_no_wrapper) = true).
Proof.
  split.
  - split; [reflexivity|].
    exact (proj1 (init_requires_cross Samples.native) eq_refl).
  - split; [reflexivity|].
    exact (proj2 (proj2 (proj2 (init_requires_cross Samples.cross_no_wrapper)))
             eq_refl).
Defined.

End FlagTables.

(* ===================================================================== *)
(** ** The sanity check *)
(* ===================================================================== *)

Section SanityCheckFacts.
Import Py Sdcc.
Context {Environment : Type} (base : Base Environment).
Implicit Types (self : SdccCompiler) (w : world) (tr : list event).

Ltac unfold_check :=
  unfold _sanity_check_impl, bind, debug, write_file, call_Popen_safe,
    call_subprocess_run, ret, raise.

(** Splits the check along every test it makes and leaves the trace as
    an explicit list. *)
Ltac check_cases :=
  unfold_check;
  repeat (case_match; simplify_eq/=; try done).

(** Turns the boolean tests on return codes into (in)equalities. *)
Ltac norm_rc :=
  repeat match goal with
  | H : negb _ = true |- _ => apply negb_true_iff in H
  | H : negb _ = false |- _ => apply negb_false_iff in H
  | H : (_ =? _)%Z = true |- _ => apply Z.eqb_eq in H
  | H : (_ =? _)%Z = false |- _ => apply Z.eqb_neq in H
  end.

(** Closes or simplifies a membership hypothesis in an explicit trace. *)
Ltac in_trace H :=
  repeat (apply elem_of_cons in H as [H|H]; [try discriminate H|]);
  try (by apply elem_of_nil in H).

(** C1. An exit code other than zero from the compiler makes the check
    raise [EnvironmentException] ("cannot compile programs") with no
    attempt to run the probe; and wherever the probe is run, the
    compiler was called before it and had exited with zero. *)
Theorem compile_failure_is_fatal self work_dir environment sname code w :
  forall r tr,
    _sanity_check_impl base self work_dir environment sname code w = (r, tr) ->
    (forall cmdlist cwd rc stdo stde,
       Popen_safe cmdlist cwd (Ok (rc, stdo, stde)) ∈ tr -> rc <> 0%Z ->
       r = Raise (EnvironmentException
             ("Compiler " +:+ name_string base self
              +:+ " cannot compile programs."))
       /\ ~ run_attempted tr)
    /\ (forall cmdlist o, subprocess_run cmdlist o ∈ tr ->
       exists pre post cmd cwd stdo stde,
         tr = pre ++ Popen_safe cmd cwd (Ok (0%Z, stdo, stde)) :: post
         /\ subprocess_run cmdlist o ∈ post).
Proof.
  intros r tr Hrun. split.
  - intros cmdlist cwd rc stdo stde Hin Hrc. revert Hrun. check_cases.
    all: intros; simplify_eq; in_trace Hin; simplify_eq; norm_rc; try done.
    all: split; [done|]; intros (c & o & Hc); in_trace Hc.
  - intros cmdlist o Hin. revert Hrun. check_cases.
    all: intros; simplify_eq; in_trace Hin; simplify_eq; norm_rc; subst.
    all: eexists [_; _; _], _, _, _, _, _; split; [reflexivity|].
    all: repeat (apply elem_of_cons; ((by left) || right)).
Qed.

(** C2. Cross-compiling with no execution wrapper: the compiler is
    called with the arguments of mode [COMPILE]; the probe is never
    run; and once the compiler has exited with zero the check returns
    normally. *)
Theorem cross_without_wrapper_skips_run
    self work_dir environment sname code w :
  is_cross self = true -> exe_wrapper self = None ->
  forall r tr,
    _sanity_check_impl base self work_dir environment sname code w = (r, tr) ->
    (forall cmdlist cwd out, Popen_safe cmdlist cwd out ∈ tr ->
       cmdlist
       = exelist self ++ [sname]
         ++ get_output_args base self
              ((hd "" (PyStr.rsplit1 "."%char sname) +:+ "_cross") +:+ ".out")
         ++ (_get_basic_compiler_args base self environment COMPILE).1
         ++ linker_to_compiler_args base self
              (_get_basic_compiler_args base self environment COMPILE).2)
    /\ ~ run_attempted tr
    /\ (forall cmdlist cwd stdo stde,
          Popen_safe cmdlist cwd (Ok (0%Z, stdo, stde)) ∈ tr -> r = Ok tt).
Proof.
  intros Hcross Hwrap r tr. unfold_check. rewrite Hcross, Hwrap.
  destruct (_get_basic_compiler_args base self environment COMPILE)
    as [cargs largs] eqn:Hargs.
  repeat (case_match; simplify_eq/=); intros; simplify_eq.
  all: split; [intros cmd cwd out Hin; in_trace Hin; by simplify_eq|].
  all: split; [intros (c & o & Hc); in_trace Hc|].
  all: intros cmd cwd stdo stde Hin; in_trace Hin; simplify_eq; norm_rc;
       done.
Qed.

(** C10. In the run phase, a probe that cannot be launched raises
    "Could not invoke sanity test executable", a probe that exits with a
    code other than zero raises "are not runnable", and a probe that
    exits with zero makes the check return normally. The two run-phase
    messages and the compile-phase message are pairwise different,
    whatever is filled into them. *)
Theorem run_phase_outcomes self work_dir environment sname code w :
  forall r tr,
    _sanity_check_impl base self work_dir environment sname code w = (r, tr) ->
    (forall cmdlist str_e, subprocess_run cmdlist (RunRaised str_e) ∈ tr ->
       r = Raise (EnvironmentException
             ("Could not invoke sanity test executable: " +:+ str_e +:+ ".")))
    /\ (forall cmdlist rc, subprocess_run cmdlist (RunCompleted rc) ∈ tr ->
       rc <> 0%Z ->
       r = Raise (EnvironmentException
             ("Executables created by " +:+ language self +:+ " compiler "
              +:+ name_string base self +:+ " are not runnable.")))
    /\ (forall cmdlist, subprocess_run cmdlist (RunCompleted 0) ∈ tr ->
       r = Ok tt)
    /\ (forall str_e lang name name',
       "Could not invoke sanity test executable: " +:+ str_e +:+ "."
       <> "Executables created by " +:+ lang +:+ " compiler " +:+ name
          +:+ " are not runnable."
       /\ "Could not invoke sanity test executable: " +:+ str_e +:+ "."
          <> "Compiler " +:+ name' +:+ " cannot compile programs."
       /\ "Executables created by " +:+ lang +:+ " compiler " +:+ name
          +:+ " are not runnable."
          <> "Compiler " +:+ name' +:+ " cannot compile programs.").
Proof.
  intros r tr Hrun. repeat split.
  - intros cmdlist str_e Hin. revert Hrun. check_cases.
    all: intros; simplify_eq; in_trace Hin; by simplify_eq.
  - intros cmdlist rc Hin Hrc. revert Hrun. check_cases.
    all: intros; simplify_eq; in_trace Hin; simplify_eq; norm_rc; done.
  - intros cmdlist Hin. revert Hrun. check_cases.
    all: intros; simplify_eq; in_trace Hin; simplify_eq; norm_rc; done.
  - intros Heq. vm_compute in Heq. discriminate Heq.
  - intros Heq. vm_compute in Heq. discriminate Heq.
  - intros Heq. vm_compute in Heq. discriminate Heq.
Qed.

End SanityCheckFacts.

Section SanityCheckWitnesses.
Import Py Sdcc.

Lemma compile_failure_is_fatal_witness :
  (Popen_safe
     ["sdcc"; "sanitycheckc.c"; "-o"; "sanitycheckc_cross.out";
      "--nostdlib"] "/tmp/w" (Ok (1%Z, "", ""))
     ∈ (Samples.check Samples.cross_with_wrapper
          (Samples.world_of 1 (RunCompleted 0))).2
   /\ 1%Z <> 0%Z
   /\ (Samples.check Samples.cross_with_wrapper
         (Samples.world_of 1 (RunCompleted 0))).1
      = Raise (EnvironmentException "Compiler sdcc cannot compile programs.")
   /\ ~ run_attempted
        (Samples.check Samples.cross_with_wrapper
           (Samples.world_of 1 (RunCompleted 0))).2)
  /\ (subprocess_run ["ucsim"; "/tmp/w/sanitycheckc_cross.out"]
        (RunCompleted 0)
        ∈ (Samples.check Samples.cross_with_wrapper
             (Samples.world_of 0 (RunCompleted 0))).2
      /\ exists pre post cmd cwd stdo stde,
           (Samples.check Samples.cross_with_wrapper
              (Samples.world_of 0 (RunCompleted 0))).2
           = pre ++ Popen_safe cmd cwd (Ok (0%Z, stdo, stde)) :: post
           /\ subprocess_run ["ucsim"; "/tmp/w/sanitycheckc_cross.out"]
                (RunCompleted 0) ∈ post).
Proof.
  split.
  - assert (Hin : Popen_safe
       ["sdcc"; "sanitycheckc.c"; "-o"; "sanitycheckc_cross.out";
        "--nostdlib"] "/tmp/w" (Ok (1%Z, "", ""))
       ∈ (Samples.check Samples.cross_with_wrapper
            (Samples.world_of 1 (RunCompleted 0))).2).
    { vm_compute. do 3 right. left. }
    assert (Hrc : 1%Z <> 0%Z) by discriminate.
    split; [exact Hin|]. split; [exact Hrc|].
    exact (proj1 (compile_failure_is_fatal Samples.base
             Samples.cross_with_wrapper "/tmp/w" tt "sanitycheckc.c"
             "int main;" (Samples.world_of 1 (RunCompleted 0)) _ _
             (surjective_pairing _)) _ _ _ _ _ Hin Hrc).
  - assert (Hin : subprocess_run ["ucsim"; "/tmp/w/sanitycheckc_cross.out"]
        (RunCompleted 0)
        ∈ (Samples.check Samples.cross_with_wrapper
             (Samples.world_of 0 (RunCompleted 0))).2).
    { vm_compute. do 11 right. left. }
    split; [exact Hin|].
    exact (proj2 (compile_failure_is_fatal Samples.base
             Samples.cross_with_wrapper "/tmp/w" tt "sanitycheckc.c"
             "int main;" (Samples.world_of 0 (RunCompleted 0)) _ _
             (surjective_pairing _)) _ _ Hin).
Defined.

Lemma cross_without_wrapper_skips_run_witness :
  is_cross Samples.cross_no_wrapper = true
  /\ exe_wrapper Samples.cross_no_wrapper = None
  /\ Popen_safe
       ["sdcc"; "sanitycheckc.c"; "-o"; "sanitycheckc_cross.out"; "-c"]
       "/tmp/w" (Ok (0%Z, "", ""))
       ∈ (Samples.check Samples.cross_no_wrapper
            (Samples.world_of 0 (RunCompleted 1))).2
  /\ ~ run_attempted
       (Samples.check Samples.cross_no_wrapper
          (Samples.world_of 0 (RunCompleted 1))).2
  /\ (Samples.check Samples.cross_no_wrapper
        (Samples.world_of 0 (RunCompleted 1))).1 = Ok tt.
Proof.
  assert (Hin : Popen_safe
       ["sdcc"; "sanitycheckc.c"; "-o"; "sanitycheckc_cross.out"; "-c"]
       "/tmp/w" (Ok (0%Z, "", ""))
       ∈ (Samples.check Samples.cross_no_wrapper
            (Samples.world_of 0 (RunCompleted 1))).2).
  { vm_compute. do 3 right. left. }
  destruct (cross_without_wrapper_skips_run Samples.base
              Samples.cross_no_wrapper "/tmp/w" tt "sanitycheckc.c"
              "int main;" (Samples.world_of 0 (RunCompleted 1))
              eq_refl eq_refl _ _ (surjective_pairing _))
    as (_ & Hnorun & Hok).
  split; [reflexivity|]. split; [reflexivity|]. split; [exact Hin|].
  split; [exact Hnorun | exact (Hok _ _ _ _ Hin)].
Defined.

Lemma run_phase_outcomes_witness :
  (subprocess_run ["ucsim"; "/tmp/w/sanitycheckc_cross.out"]
     (RunRaised "[Errno 2] No such file or directory: 'ucsim'")
     ∈ (Samples.check Samples.cross_with_wrapper
          (Samples.world_of 0
             (RunRaised "[Errno 2] No such file or directory: 'ucsim'"))).2
   /\ (Samples.check Samples.cross_with_wrapper
         (Samples.world_of 0
            (RunRaised "[Errno 2] No such file or directory: 'ucsim'"))).1
      = Raise (EnvironmentException
          ("Could not invoke sanity test executable: "
           +:+ "[Errno 2] No such file or directory: 'ucsim'" +:+ ".")))
  /\ (subprocess_run ["/tmp/w/sanitycheckc.out"] (RunCompleted 3)
        ∈ (Samples.check Samples.native
             (Samples.world_of 0 (RunCompleted 3))).2
      /\ 3%Z <> 0%Z
      /\ (Samples.check Samples.native
            (Samples.world_of 0 (RunCompleted 3))).1
         = Raise (EnvironmentException
             ("Executables created by " +:+ "c" +:+ " compiler "
              +:+ "sdcc" +:+ " are not runnable.")))
  /\ (subprocess_run ["/tmp/w/sanitycheckc.out"] (RunCompleted 0)
        ∈ (Samples.check Samples.native
             (Samples.world_of 0 (RunCompleted 0))).2
      /\ (Samples.check Samples.native
            (Samples.world_of 0 (RunCompleted 0))).1 = Ok tt).
Proof.
  split; [|split].
  - assert (Hin : subprocess_run ["ucsim"; "/tmp/w/sanitycheckc_cross.out"]
        (RunRaised "[Errno 2] No such file or directory: 'ucsim'")
        ∈ (Samples.check Samples.cross_with_wrapper
             (Samples.world_of 0
                (RunRaised "[Errno 2] No such file or directory: 'ucsim'"))).2).
    { vm_compute. do 11 right. left. }
    split; [exact Hin|].
    exact (proj1 (run_phase_outcomes Samples.base
             Samples.cross_with_wrapper "/tmp/w" tt "sanitycheckc.c"
             "int main;" _ _ _ (surjective_pairing _)) _ _ Hin).
  - assert (Hin : subprocess_run ["/tmp/w/sanitycheckc.out"] (RunCompleted 3)
        ∈ (Samples.check Samples.native
             (Samples.world_of 0 (RunCompleted 3))).2).
    { vm_compute. do 11 right. left. }
    assert (Hrc : 3%Z <> 0%Z) by discriminate.
    split; [exact Hin|]. split; [exact Hrc|].
    exact (proj1 (proj2 (run_phase_outcomes Samples.base
             Samples.native "/tmp/w" tt "sanitycheckc.c"
             "int main;" _ _ _ (surjective_pairing _))) _ _ Hin Hrc).
  - assert (Hin : subprocess_run ["/tmp/w/sanitycheckc.out"] (RunCompleted 0)
        ∈ (Samples.check Samples.native
             (Samples.world_of 0 (RunCompleted 0))).2).
    { vm_compute. do 11 right. left. }
    split; [exact Hin|].
    exact (proj1 (proj2 (proj2 (run_phase_outcomes Samples.base
             Samples.native "/tmp/w" tt "sanitycheckc.c"
             "int main;" _ _ _ (surjective_pairing _)))) _ Hin).
Defined.

End SanityCheckWitnesses.

(* ===================================================================== *)
(** ** Strings: splitting and joining *)
(* ===================================================================== *)

Section StringFacts.
Import PyStr.
#[local] Arguments String.append : simpl nomatch.
Implicit Types (s p w : string) (c sep : ascii) (ws comps : list string).

Lemma app_empty_r s : s +:+ "" = s.
Proof. induction s as [|a s IH]; simpl; [done | by rewrite IH]. Qed.

Lemma app_eq_empty s p : s +:+ p = "" -> s = "" /\ p = "".
Proof. destruct s; simpl; [done | discriminate]. Qed.

Lemma startswith_app p s : startswith p (p +:+ s) = true.
Proof.
  induction p as [|a p IH]; simpl; [done|].
  by rewrite bool_decide_eq_true_2, IH.
Qed.

Lemma startswith_head_app c s p :
  s <> "" -> startswith (String c "") (s +:+ p) = startswith (String c "") s.
Proof. destruct s as [|a s]; [done|]. intros _. simpl. done. Qed.

Lemma startswith_sep_contains sep s :
  startswith (String sep "") s = true -> contains sep s = true.
Proof.
  destruct s as [|a s]; simpl; [done|]. rewrite andb_true_r.
  intros Ha. apply bool_decide_eq_true in Ha as ->.
  by rewrite bool_decide_eq_true_2.
Qed.

Lemma split_not_nil sep s : split sep s <> [].
Proof.
  destruct s as [|a s]; simpl; [done|].
  case_bool_decide; [done|]. by destruct (split sep s).
Qed.

Lemma split_lacks_sep sep s :
  Forall (fun w => contains sep w = false) (split sep s).
Proof.
  induction s as [|a s IH]; simpl.
  - by constructor.
  - case_bool_decide as Ha.
    + by constructor.
    + destruct (split sep s) as [|w ws]; simpl.
      * constructor; [|done]. simpl. by rewrite bool_decide_eq_false_2.
      * inversion_clear IH as [|? ? Hw Hws]. constructor; [|done].
        simpl. by rewrite bool_decide_eq_false_2.
Qed.

Lemma split_without_sep sep w : contains sep w = false -> split sep w = [w].
Proof.
  induction w as [|a w IH]; simpl; [done|].
  intros [Ha Hw]%orb_false_elim. rewrite Ha, (IH Hw). done.
Qed.

Lemma split_app_sep sep s p :
  split sep (s +:+ String sep p) = split sep s ++ split sep p.
Proof.
  induction s as [|a s IH]; simpl.
  - by rewrite bool_decide_eq_true_2.
  - case_bool_decide; rewrite IH; [done|].
    pose proof (split_not_nil sep s). by destruct (split sep s).
Qed.

Lemma split_replicate_app sep n s :
  split sep (PyStr.replicate n sep +:+ s)
  = List.repeat "" n ++ split sep s.
Proof.
  induction n as [|n IH]; simpl; [done|].
  by rewrite bool_decide_eq_true_2, IH.
Qed.

Lemma split_join sep comps :
  comps <> [] -> Forall (fun w => contains sep w = false) comps ->
  split sep (join sep comps) = comps.
Proof.
  induction comps as [|w [|w' ws] IH]; intros Hne Hall; [done|..].
  - simpl. apply split_without_sep. by inversion Hall.
  - inversion_clear Hall as [|? ? Hw Hws].
    change (join sep (w :: w' :: ws))
      with (w +:+ String sep (join sep (w' :: ws))).
    rewrite split_app_sep, (split_without_sep _ _ Hw), IH; done.
Qed.

Lemma join_head_nonempty sep w ws : w <> "" -> join sep (w :: ws) <> "".
Proof.
  intros Hw. destruct ws; simpl; [done|]. by intros [? _]%app_eq_empty.
Qed.

Lemma join_startswith sep c w ws :
  w <> "" ->
  startswith (String c "") (join sep (w :: ws)) = startswith (String c "") w.
Proof.
  intros Hw. destruct ws; [done|].
  change (join sep (w :: s :: ws))
    with (w +:+ String sep (join sep (s :: ws))).
  by apply startswith_head_app.
Qed.

End StringFacts.

(* ===================================================================== *)
(** ** [normpath] is stable on its own results *)
(* ===================================================================== *)

Section NormpathFacts.
Import PyStr posixpath.
#[local] Arguments String.append : simpl nomatch.
Implicit Types (k : nat) (acc comps pre suf : list string) (comp : string).

Lemma normpath_unfold path :
  path <> "" ->
  normpath path = assemble (initial_slashes path) (norm_comps path).
Proof.
  intros Hne. unfold normpath, assemble, norm_comps.
  by rewrite (bool_decide_eq_false_2 _ Hne).
Qed.

Lemma initial_slashes_le_2 path : initial_slashes path <= 2.
Proof. unfold initial_slashes. repeat case_match; lia. Qed.

Lemma normpath_step_cases k acc comp :
  normpath_step k acc comp = acc
  \/ normpath_step k acc comp = acc ++ [comp]
  \/ normpath_step k acc comp = removelast acc.
Proof. unfold normpath_step. repeat case_match; auto. Qed.

Lemma normpath_step_empty k acc : normpath_step k acc "" = acc.
Proof. reflexivity. Qed.

Lemma foldl_skip_empty k acc n comps :
  foldl (normpath_step k) acc (List.repeat "" n ++ comps)
  = foldl (normpath_step k) acc comps.
Proof. induction n as [|n IH]; simpl; [done | exact IH]. Qed.

Lemma removelast_prefix acc : exists suf, acc = removelast acc ++ suf.
Proof.
  destruct acc as [|x acc] using rev_ind.
  - by exists [].
  - exists [x]. by rewrite removelast_last.
Qed.

Lemma stable_nil k : stable k [].
Proof. intros pre comp suf Heq. by destruct pre. Qed.

Lemma stable_prefix k pre suf : stable k (pre ++ suf) -> stable k pre.
Proof.
  intros Hst pre' comp suf' ->. apply (Hst pre' comp (suf' ++ suf)).
  by rewrite <- app_assoc.
Qed.

Lemma stable_snoc k acc comp :
  stable k acc -> normpath_step k acc comp = acc ++ [comp] ->
  stable k (acc ++ [comp]).
Proof.
  intros Hst Hstep pre comp' suf Heq.
  destruct suf as [|x suf _] using rev_ind.
  - apply app_inj_tail in Heq as [-> ->]. exact Hstep.
  - rewrite app_comm_cons, app_assoc in Heq.
    apply app_inj_tail in Heq as [-> _]. by eapply Hst.
Qed.

Lemma stable_step k acc comp :
  stable k acc -> stable k (normpath_step k acc comp).
Proof.
  intros Hst.
  destruct (normpath_step_cases k acc comp) as [Heq|[Heq|Heq]].
  - by rewrite Heq.
  - rewrite Heq. by apply stable_snoc.
  - rewrite Heq. destruct (removelast_prefix acc) as [suf Hsuf].
    apply (stable_prefix k _ suf). by rewrite <- Hsuf.
Qed.

Lemma stable_foldl k acc comps :
  stable k acc -> stable k (foldl (normpath_step k) acc comps).
Proof.
  revert acc. induction comps as [|comp comps IH]; intros acc Hst; simpl.
  - done.
  - by apply IH, stable_step.
Qed.

Lemma stable_replay k pre suf :
  stable k (pre ++ suf) -> foldl (normpath_step k) pre suf = pre ++ suf.
Proof.
  revert pre. induction suf as [|comp suf IH]; intros pre Hst; simpl.
  - by rewrite app_nil_r.
  - rewrite (Hst pre comp suf eq_refl).
    rewrite (IH (pre ++ [comp])); by rewrite <- app_assoc.
Qed.

Lemma stable_nonempty k comps :
  stable k comps -> Forall (fun w => w <> "") comps.
Proof.
  intros Hst. apply Forall_forall. intros w Hin ->.
  apply list_elem_of_split in Hin as (pre & suf & ->).
  specialize (Hst pre "" suf eq_refl). rewrite normpath_step_empty in Hst.
  apply (f_equal length) in Hst. rewrite length_app in Hst. simpl in Hst. lia.
Qed.

Lemma Forall_normpath_step (P : string -> Prop) k acc comp :
  Forall P acc -> P comp -> Forall P (normpath_step k acc comp).
Proof.
  intros Hacc Hcomp.
  destruct (normpath_step_cases k acc comp) as [Heq|[Heq|Heq]]; rewrite Heq.
  - done.
  - apply Forall_app. by split; [|constructor].
  - destruct (removelast_prefix acc) as [suf Hsuf]. rewrite Hsuf in Hacc.
    by apply Forall_app in Hacc as [? _].
Qed.

Lemma Forall_foldl_normpath_step (P : string -> Prop) k acc comps :
  Forall P acc -> Forall P comps ->
  Forall P (foldl (normpath_step k) acc comps).
Proof.
  revert acc. induction comps as [|comp comps IH]; intros acc Hacc Hall.
  - done.
  - inversion_clear Hall. simpl. apply IH; [|done].
    by apply Forall_normpath_step.
Qed.

Lemma norm_comps_stable path : stable (initial_slashes path) (norm_comps path).
Proof. apply stable_foldl, stable_nil. Qed.

Lemma norm_comps_lack_sep path :
  Forall (fun w => contains sep w = false) (norm_comps path).
Proof.
  apply Forall_foldl_normpath_step; [constructor | apply split_lacks_sep].
Qed.

(** A joined list of normalised components does not start with [/]. *)
Lemma join_not_absolute k comps :
  stable k comps -> Forall (fun w => contains sep w = false) comps ->
  startswith "/" (PyStr.join sep comps) = false.
Proof.
  intros Hst Hall. destruct comps as [|w ws]; [done|].
  apply stable_nonempty in Hst.
  inversion_clear Hst as [|? ? Hw _]. inversion_clear Hall as [|? ? Hsep _].
  unfold sep in *. rewrite (join_startswith "/" "/" w ws Hw).
  destruct (startswith "/" w) eqn:Hs; [|done].
  apply (startswith_sep_contains "/") in Hs. congruence.
Qed.

Lemma assemble_not_empty k comps : assemble k comps <> "".
Proof. unfold assemble. by case_bool_decide. Qed.

Lemma initial_slashes_relative path :
  startswith "/" path = false -> initial_slashes path = 0.
Proof. unfold initial_slashes. by intros ->. Qed.

Lemma initial_slashes_one path :
  startswith "/" path = false -> initial_slashes (String sep path) = 1.
Proof.
  intros Hrel. unfold initial_slashes, sep.
  destruct path as [|a path]; [done|]. simpl in *. by rewrite Hrel.
Qed.

Lemma initial_slashes_two path :
  startswith "/" path = false ->
  initial_slashes (String sep (String sep path)) = 2.
Proof.
  intros Hrel. unfold initial_slashes, sep.
  destruct path as [|a path]; [done|]. simpl in *. by rewrite Hrel.
Qed.

Lemma initial_slashes_assemble k comps :
  k <= 2 -> stable k comps ->
  Forall (fun w => contains sep w = false) comps ->
  initial_slashes (assemble k comps) = k.
Proof.
  intros Hk Hst Hall. pose proof (join_not_absolute k comps Hst Hall) as Hrel.
  unfold assemble.
  destruct k as [|[|[|k]]]; [| | |lia].
  - rewrite (bool_decide_eq_true_2 (0 = 0)) by done.
    case_bool_decide as Hj; [done|]. by apply initial_slashes_relative.
  - by apply initial_slashes_one.
  - by apply initial_slashes_two.
Qed.

Lemma norm_comps_assemble k comps :
  k <= 2 -> stable k comps ->
  Forall (fun w => contains sep w = false) comps ->
  foldl (normpath_step k) [] (split sep (assemble k comps)) = comps.
Proof.
  intros Hk Hst Hall. unfold assemble.
  destruct (decide (comps = [])) as [->|Hne].
  - destruct k as [|[|[|k]]]; [reflexivity ..|lia].
  - assert (Hj : PyStr.join sep comps <> "").
    { destruct comps as [|w ws]; [done|]. apply join_head_nonempty.
      apply stable_nonempty in Hst. by inversion Hst. }
    destruct (decide (k = 0)) as [->|Hk0].
    + simpl. rewrite (bool_decide_eq_false_2 _ Hj).
      rewrite split_join by done. by apply (stable_replay 0 []).
    + rewrite (bool_decide_eq_false_2 _ Hk0).
      rewrite bool_decide_eq_false_2.
      2:{ destruct k; [done|]. simpl. discriminate. }
      rewrite split_replicate_app, foldl_skip_empty, split_join by done.
      by apply (stable_replay k []).
Qed.

Lemma normpath_assemble k comps :
  k <= 2 -> stable k comps ->
  Forall (fun w => contains sep w = false) comps ->
  normpath (assemble k comps) = assemble k comps.
Proof.
  intros Hk Hst Hall.
  rewrite normpath_unfold by apply assemble_not_empty.
  unfold norm_comps. rewrite initial_slashes_assemble by done.
  by rewrite norm_comps_assemble.
Qed.

(** [normpath] leaves a normalised path as it is. *)
Lemma normpath_idemp path : normpath (normpath path) = normpath path.
Proof.
  destruct (decide (path = "")) as [->|Hne]; [reflexivity|].
  rewrite (normpath_unfold path Hne).
  apply normpath_assemble;
    [apply initial_slashes_le_2 | apply norm_comps_stable
    | apply norm_comps_lack_sep].
Qed.

Lemma isabs_assemble k comps : k <> 0 -> isabs (assemble k comps) = true.
Proof.
  intros Hk. unfold assemble, isabs. rewrite (bool_decide_eq_false_2 _ Hk).
  destruct k; [done|]. simpl. done.
Qed.

(** [normpath] keeps an absolute path absolute. *)
Lemma isabs_normpath path : isabs path = true -> isabs (normpath path) = true.
Proof.
  intros Habs. assert (Hne : path <> "") by (by intros ->).
  rewrite (normpath_unfold path Hne). apply isabs_assemble.
  unfold initial_slashes. unfold isabs in Habs. rewrite Habs.
  by case_match.
Qed.

Lemma join_absolute_r a b : isabs b = true -> posixpath.join a b = b.
Proof. unfold posixpath.join, isabs. by intros ->. Qed.

Lemma isabs_join a b : isabs a = true -> isabs (posixpath.join a b) = true.
Proof.
  intros Ha. unfold posixpath.join. destruct (startswith "/" b) eqn:Hb; [done|].
  assert (Hne : a <> "") by (by intros ->).
  unfold isabs in *. case_match; by rewrite startswith_head_app.
Qed.

Lemma isabs_normpath_relative path :
  isabs path = false -> isabs (normpath path) = false.
Proof.
  intros Hrel. destruct (decide (path = "")) as [->|Hne]; [done|].
  rewrite (normpath_unfold path Hne).
  unfold isabs in *. rewrite (initial_slashes_relative path Hrel).
  unfold assemble. rewrite (bool_decide_eq_true_2 (0 = 0)) by done.
  case_bool_decide; [done|].
  apply (join_not_absolute 0).
  - rewrite <- (initial_slashes_relative path Hrel). apply norm_comps_stable.
  - apply norm_comps_lack_sep.
Qed.

(** *** Joining onto a directory that normalises to [.] *)

Lemma endswith_inv c s :
  endswith c s = true -> exists s', s = s' +:+ String c "".
Proof.
  induction s as [|a s IH]; simpl; [done|].
  destruct s as [|b s].
  - intros ->%bool_decide_eq_true. by exists "".
  - intros [s' ->]%IH. by exists (String a s').
Qed.

Lemma app_assoc_string (s1 s2 s3 : string) :
  (s1 +:+ s2) +:+ s3 = s1 +:+ (s2 +:+ s3).
Proof. induction s1 as [|a s1 IH]; simpl; [done | by rewrite IH]. Qed.

Lemma stable_no_dot k comps : stable k comps -> "." ∉ comps.
Proof.
  intros Hst Hin. apply list_elem_of_split in Hin as (pre & suf & ->).
  specialize (Hst pre "." suf eq_refl).
  change (normpath_step k pre ".") with pre in Hst.
  apply (f_equal length) in Hst. rewrite length_app in Hst. simpl in Hst. lia.
Qed.

Lemma join_eq_dot k comps :
  stable k comps -> PyStr.join sep comps <> ".".
Proof.
  intros Hst Hj. pose proof (stable_no_dot k comps Hst) as Hdot.
  pose proof (stable_nonempty k comps Hst) as Hne.
  destruct comps as [|w [|w' ws]]; [done|..].
  - simpl in Hj. subst w. apply Hdot. by left.
  - inversion_clear Hne as [|? ? Hw _].
    change (w +:+ String sep (PyStr.join sep (w' :: ws)) = ".") in Hj.
    destruct w as [|a [|b w]]; [done|..]; simpl in Hj; discriminate Hj.
Qed.

Lemma normpath_eq_dot path :
  normpath path = "." ->
  path = "" \/ (path <> "" /\ isabs path = false /\ norm_comps path = []).
Proof.
  intros Hdot. destruct (decide (path = "")) as [->|Hne]; [by left|right].
  split; [done|]. destruct (isabs path) eqn:Habs.
  { apply isabs_normpath in Habs. by rewrite Hdot in Habs. }
  split; [done|]. rewrite (normpath_unfold path Hne) in Hdot.
  unfold isabs in Habs. pose proof (norm_comps_stable path) as Hst.
  rewrite (initial_slashes_relative path Habs) in Hdot, Hst.
  unfold assemble in Hdot. rewrite (bool_decide_eq_true_2 (0 = 0)) in Hdot by done.
  case_bool_decide as Hj.
  - destruct (norm_comps path) as [|w ws]; [done|]. exfalso.
    apply stable_nonempty in Hst. inversion_clear Hst as [|? ? Hw _].
    by apply (join_head_nonempty sep w ws).
  - by apply join_eq_dot in Hst.
Qed.

Lemma foldl_split_empty k acc :
  foldl (normpath_step k) acc (split sep "") = acc.
Proof. reflexivity. Qed.

Lemma normpath_relative path :
  isabs path = false ->
  normpath path = assemble 0 (foldl (normpath_step 0) [] (split sep path)).
Proof.
  intros Hrel. destruct (decide (path = "")) as [->|Hne]; [done|].
  rewrite (normpath_unfold path Hne). unfold norm_comps.
  by rewrite (initial_slashes_relative path Hrel).
Qed.

Lemma normpath_join_dot a b :
  normpath a = "." -> isabs b = false ->
  normpath (posixpath.join a b) = normpath b.
Proof.
  intros Hdot Hb.
  apply normpath_eq_dot in Hdot as [->|(Hne & Ha & Hcomps)].
  { unfold posixpath.join. unfold isabs in Hb. by rewrite Hb. }
  unfold norm_comps in Hcomps. unfold isabs in Ha, Hb.
  rewrite (initial_slashes_relative a Ha) in Hcomps.
  rewrite (normpath_relative b Hb).
  assert (Hgen : forall a', a' +:+ String sep "" = a \/ a' = a ->
            normpath (a' +:+ String sep b)
            = assemble 0 (foldl (normpath_step 0) [] (split sep b))).
  { intros a' Ha'. rewrite normpath_relative.
    2:{ unfold isabs. destruct Ha' as [<-| ->].
        - destruct a'; [done|]. simpl in *. done.
        - by rewrite startswith_head_app. }
    rewrite split_app_sep, foldl_app. do 2 f_equal.
    destruct Ha' as [<-| ->]; [|done].
    by rewrite split_app_sep, foldl_app in Hcomps. }
  unfold posixpath.join. rewrite Hb, (bool_decide_eq_false_2 _ Hne). simpl.
  destruct (endswith sep a) eqn:Hend.
  - apply endswith_inv in Hend as [a' Ha'].
    rewrite Ha', app_assoc_string. apply Hgen. by left.
  - apply Hgen. by right.
Qed.

End NormpathFacts.

(* ===================================================================== *)
(** ** The path rewriter *)
(* ===================================================================== *)

Section RewriterFacts.
Import Py Sdcc.
#[local] Arguments String.append : simpl nomatch.
Implicit Types (h : store) (parameter_list q : loc) (build_dir i : string).

(** *** One token *)

Lemma is_path_arg_iff i :
  is_path_arg i = true <-> PyStr.take 2 i = "-I" \/ PyStr.take 2 i = "-L".
Proof.
  unfold is_path_arg. rewrite orb_true_iff, !bool_decide_eq_true. done.
Qed.

Lemma absolute_arg_path_arg build_dir i :
  is_path_arg i = true ->
  is_path_arg (absolute_arg build_dir i) = true
  /\ PyStr.take 2 (absolute_arg build_dir i) = PyStr.take 2 i
  /\ PyStr.drop 2 (absolute_arg build_dir i)
     = posixpath.normpath (posixpath.join build_dir (PyStr.drop 2 i)).
Proof.
  intros Hi. unfold absolute_arg.
  apply is_path_arg_iff in Hi as [Hi|Hi]; rewrite Hi; done.
Qed.

Lemma rewritten_other build_dir i :
  is_path_arg i = false -> rewritten build_dir i = i.
Proof. unfold rewritten. by intros ->. Qed.

Lemma rewritten_path_arg build_dir i :
  is_path_arg i = true -> rewritten build_dir i = absolute_arg build_dir i.
Proof. unfold rewritten. by intros ->. Qed.

(** A second pass over a rewritten token finds it as the first pass
    left it, when the build directory is absolute or normalises to
    [.]. *)
Lemma rewritten_idemp build_dir i :
  posixpath.isabs build_dir = true \/ posixpath.normpath build_dir = "." ->
  rewritten build_dir (rewritten build_dir i) = rewritten build_dir i.
Proof.
  intros Hdir. destruct (is_path_arg i) eqn:Hi.
  2:{ by rewrite !rewritten_other by by rewrite ?rewritten_other. }
  rewrite (rewritten_path_arg _ i Hi).
  destruct (absolute_arg_path_arg build_dir i Hi) as (Hi' & Htake & Hdrop).
  rewrite (rewritten_path_arg _ _ Hi').
  unfold absolute_arg at 1. rewrite Htake, Hdrop. unfold absolute_arg.
  f_equal. set (r := PyStr.drop 2 i).
  destruct (posixpath.isabs (posixpath.join build_dir r)) eqn:Habs.
  - rewrite join_absolute_r by by apply isabs_normpath.
    apply normpath_idemp.
  - destruct Hdir as [Hdir|Hdot].
    { by rewrite isabs_join in Habs. }
    assert (Hr : posixpath.isabs r = false).
    { destruct (posixpath.isabs r) eqn:Hr; [|done].
      by rewrite (join_absolute_r _ _ Hr), Hr in Habs. }
    rewrite (normpath_join_dot _ r Hdot Hr).
    rewrite normpath_join_dot by (by try apply isabs_normpath_relative).
    apply normpath_idemp.
Qed.

(** *** The loop *)

Lemma lookup_total_store h q :
  h !!! q = default [] (h !! q).
Proof. by rewrite lookup_total_alt. Qed.

Lemma lookup_total_insert_store h q (l : list string) :
  <[q := l]> h !!! q = l.
Proof. by rewrite lookup_total_insert_eq. Qed.

(** The loop touches no other list of the store. *)
Lemma rewrite_loop_frame fuel build_dir parameter_list idx h q :
  q <> parameter_list ->
  rewrite_loop fuel build_dir parameter_list idx h !! q = h !! q.
Proof.
  intros Hq. revert idx h.
  induction fuel as [|fuel IH]; intros idx h; simpl; [done|].
  destruct ((h !!! parameter_list) !! idx) as [i|]; [|done].
  rewrite IH. destruct (is_path_arg i); [|done].
  by rewrite lookup_insert_ne.
Qed.

(** The loop creates no list and deletes none. *)
Lemma rewrite_loop_dom fuel build_dir parameter_list idx h :
  dom (rewrite_loop fuel build_dir parameter_list idx h) = dom h.
Proof.
  revert idx h.
  induction fuel as [|fuel IH]; intros idx h; simpl; [done|].
  destruct ((h !!! parameter_list) !! idx) as [i|] eqn:Hidx; [|done].
  rewrite IH. destruct (is_path_arg i); [|done].
  rewrite dom_insert_L.
  apply subseteq_union_1_L, singleton_subseteq_l, elem_of_dom. rewrite lookup_total_store in Hidx.
  destruct (h !! parameter_list); [done|]. by destruct idx.
Qed.

(** The contents of the list after the loop: with fuel for every
    remaining index, the tokens before [idx] are as they were and the
    others are rewritten. *)
Lemma rewrite_loop_contents fuel build_dir parameter_list idx h :
  length (h !!! parameter_list) <= idx + fuel ->
  rewrite_loop fuel build_dir parameter_list idx h !!! parameter_list
  = take idx (h !!! parameter_list)
    ++ (rewritten build_dir <$> drop idx (h !!! parameter_list)).
Proof.
  revert idx h.
  induction fuel as [|fuel IH]; intros idx h Hfuel; simpl.
  - rewrite drop_ge, take_ge by lia. by rewrite app_nil_r.
  - destruct ((h !!! parameter_list) !! idx) as [i|] eqn:Hidx.
    2:{ apply lookup_ge_None in Hidx.
        rewrite drop_ge, take_ge by lia. by rewrite app_nil_r. }
    set (l := h !!! parameter_list) in *.
    set (h' := if is_path_arg i then _ else h).
    assert (Hl' : h' !!! parameter_list = <[idx := rewritten build_dir i]> l).
    { subst h'. unfold rewritten. destruct (is_path_arg i).
      - by rewrite lookup_total_insert_store.
      - by rewrite list_insert_id. }
    rewrite IH; rewrite Hl'; [|rewrite length_insert; lia].
    pose proof (lookup_lt_Some _ _ _ Hidx) as Hlt.
    rewrite (take_S_r _ _ (rewritten build_dir i))
      by (by apply list_lookup_insert_eq).
    rewrite take_insert_ge by lia. rewrite drop_insert_lt by lia.
    rewrite <- app_assoc. f_equal.
    by rewrite (drop_S l i idx Hidx).
Qed.

(** The loop stops because the list is exhausted: more fuel changes
    nothing. *)
Lemma rewrite_loop_fuel fuel fuel' build_dir parameter_list idx h :
  length (h !!! parameter_list) <= idx + fuel -> fuel <= fuel' ->
  rewrite_loop fuel' build_dir parameter_list idx h
  = rewrite_loop fuel build_dir parameter_list idx h.
Proof.
  revert fuel' idx h.
  induction fuel as [|fuel IH]; intros fuel' idx h Hlen Hle.
  - destruct fuel' as [|fuel']; simpl; [done|].
    by rewrite (proj2 (lookup_ge_None _ _)) by lia.
  - destruct fuel' as [|fuel']; [lia|]. simpl.
    destruct ((h !!! parameter_list) !! idx) as [i|] eqn:Hidx; [|done].
    apply IH; [|lia]. destruct (is_path_arg i); [|lia].
    rewrite lookup_total_insert_store, length_insert. lia.
Qed.

Lemma store_eq_at h1 h2 q :
  dom h1 = dom h2 ->
  (forall q', q' <> q -> h1 !! q' = h2 !! q') ->
  h1 !!! q = h2 !!! q ->
  h1 = h2.
Proof.
  intros Hdom Hother Hq. apply map_eq. intros q'.
  destruct (decide (q' = q)) as [->|Hne]; [|by apply Hother].
  rewrite !lookup_total_store in Hq.
  destruct (h1 !! q) as [l1|] eqn:H1, (h2 !! q) as [l2|] eqn:H2.
  - simpl in Hq. by subst.
  - apply mk_is_Some, elem_of_dom in H1. rewrite Hdom in H1.
    apply elem_of_dom in H1 as [? ?]. congruence.
  - apply mk_is_Some, elem_of_dom in H2. rewrite <- Hdom in H2.
    apply elem_of_dom in H2 as [? ?]. congruence.
  - done.
Qed.

(** What the call does to the store. *)
Lemma compute_parameters_store parameter_list build_dir h :
  let r := compute_parameters_with_absolute_paths parameter_list build_dir h in
  r.1 = parameter_list
  /\ dom r.2 = dom h
  /\ (forall q, q <> parameter_list -> r.2 !! q = h !! q)
  /\ r.2 !!! parameter_list = rewritten build_dir <$> (h !!! parameter_list).
Proof.
  unfold compute_parameters_with_absolute_paths. simpl.
  split; [done|]. split; [apply rewrite_loop_dom|].
  split; [intros q Hq; by apply rewrite_loop_frame|].
  rewrite rewrite_loop_contents by lia. by rewrite take_0, drop_0.
Qed.

End RewriterFacts.

Section RewriterClaims.
Import Py Sdcc.
#[local] Arguments String.append : simpl nomatch.
Implicit Types (h : store) (parameter_list q : loc) (build_dir i : string).

(** C3, as stated, fails: the list returned is the caller's own list
    object, and its contents have changed. *)
Lemma compute_parameters_mutates_input :
  (compute_parameters_with_absolute_paths 1%positive "/build"
     {[ 1%positive := ["-Iinc"; "-c"] ]}).1 = 1%positive
  /\ ({[ 1%positive := ["-Iinc"; "-c"] ]} : store) !! 1%positive
     = Some ["-Iinc"; "-c"]
  /\ (compute_parameters_with_absolute_paths 1%positive "/build"
        {[ 1%positive := ["-Iinc"; "-c"] ]}).2 !! 1%positive
     = Some ["-I/build/inc"; "-c"]
  /\ ~ (((compute_parameters_with_absolute_paths 1%positive "/build"
            {[ 1%positive := ["-Iinc"; "-c"] ]}).1
           ∉ dom ({[ 1%positive := ["-Iinc"; "-c"] ]} : store))
        /\ (compute_parameters_with_absolute_paths 1%positive "/build"
              {[ 1%positive := ["-Iinc"; "-c"] ]}).2 !! 1%positive
           = ({[ 1%positive := ["-Iinc"; "-c"] ]} : store) !! 1%positive).
Proof.
  split; [reflexivity|]. split; [reflexivity|]. split; [reflexivity|].
  intros [_ Hsame]. vm_compute in Hsame. discriminate Hsame.
Qed.

(** C3, amended. The call returns the very reference it was given and
    works in place: the list it denotes holds the rewritten tokens
    afterwards, and the store is otherwise as it was (no list is
    created, no other list is touched). *)
Theorem compute_parameters_in_place parameter_list build_dir h :
  (compute_parameters_with_absolute_paths parameter_list build_dir h).1
  = parameter_list
  /\ (compute_parameters_with_absolute_paths parameter_list build_dir h).2
     = match h !! parameter_list with
       | Some l => <[parameter_list := rewritten build_dir <$> l]> h
       | None => h
       end.
Proof.
  destruct (compute_parameters_store parameter_list build_dir h)
    as (Hret & Hdom & Hframe & Hcontents).
  split; [done|].
  apply (store_eq_at _ _ parameter_list).
  - rewrite Hdom. destruct (h !! parameter_list) eqn:Hl; [|done].
    rewrite dom_insert_L. symmetry.
    apply subseteq_union_1_L, singleton_subseteq_l, elem_of_dom. by eexists.
  - intros q Hq. rewrite (Hframe q Hq).
    destruct (h !! parameter_list); [|done]. by rewrite lookup_insert_ne.
  - rewrite Hcontents, lookup_total_store.
    destruct (h !! parameter_list) eqn:Hl.
    + by rewrite lookup_total_insert_store.
    + by rewrite lookup_total_store, Hl.
Qed.

(** C4. After the call the list has as many tokens as before, in the
    same places: a token whose first two characters are [-I] or [-L]
    has become those two characters followed by the normalised join
    of the build directory and the rest of the token; any other token
    is as it was. *)
Theorem compute_parameters_rewrites_path_args parameter_list build_dir h :
  length
    ((compute_parameters_with_absolute_paths parameter_list build_dir h).2
       !!! (compute_parameters_with_absolute_paths parameter_list build_dir h).1)
  = length (h !!! parameter_list)
  /\ forall idx i,
    (h !!! parameter_list) !! idx = Some i ->
    (PyStr.take 2 i = "-I" \/ PyStr.take 2 i = "-L" ->
     ((compute_parameters_with_absolute_paths parameter_list build_dir h).2
        !!! (compute_parameters_with_absolute_paths parameter_list build_dir h).1)
       !! idx
     = Some (PyStr.take 2 i
             +:+ posixpath.normpath
                   (posixpath.join build_dir (PyStr.drop 2 i))))
    /\ (PyStr.take 2 i <> "-I" -> PyStr.take 2 i <> "-L" ->
     ((compute_parameters_with_absolute_paths parameter_list build_dir h).2
        !!! (compute_parameters_with_absolute_paths parameter_list build_dir h).1)
       !! idx
     = Some i).
Proof.
  destruct (compute_parameters_store parameter_list build_dir h)
    as (Hret & _ & _ & Hcontents).
  rewrite Hret, Hcontents. split; [by rewrite length_fmap|].
  intros idx i Hidx. rewrite list_lookup_fmap, Hidx. simpl. split.
  - intros Hi%is_path_arg_iff. by rewrite rewritten_path_arg.
  - intros HI HL. rewrite rewritten_other; [done|].
    destruct (is_path_arg i) eqn:Hi; [|done].
    apply is_path_arg_iff in Hi as [?|?]; done.
Qed.

Lemma compute_parameters_rewrites_path_args_witness :
  (({[ 1%positive := ["-Iinc"; "-o"; "-L../lib"] ]} : store) !!! 1%positive)
    !! 2 = Some "-L../lib"
  /\ PyStr.take 2 "-L../lib" = "-L"
  /\ ((compute_parameters_with_absolute_paths 1%positive "/build/sub"
         {[ 1%positive := ["-Iinc"; "-o"; "-L../lib"] ]}).2 !!! 1%positive)
       !! 2 = Some "-L/build/lib"
  /\ (({[ 1%positive := ["-Iinc"; "-o"; "-L../lib"] ]} : store) !!! 1%positive)
       !! 1 = Some "-o"
  /\ PyStr.take 2 "-o" <> "-I" /\ PyStr.take 2 "-o" <> "-L"
  /\ ((compute_parameters_with_absolute_paths 1%positive "/build/sub"
         {[ 1%positive := ["-Iinc"; "-o"; "-L../lib"] ]}).2 !!! 1%positive)
       !! 1 = Some "-o".
Proof.
  pose proof (proj2 (compute_parameters_rewrites_path_args 1%positive
    "/build/sub" {[ 1%positive := ["-Iinc"; "-o"; "-L../lib"] ]})) as Hspec.
  assert (H2 : (({[ 1%positive := ["-Iinc"; "-o"; "-L../lib"] ]} : store)
                !!! 1%positive) !! 2 = Some "-L../lib") by reflexivity.
  assert (H1 : (({[ 1%positive := ["-Iinc"; "-o"; "-L../lib"] ]} : store)
                !!! 1%positive) !! 1 = Some "-o") by reflexivity.
  assert (HL : PyStr.take 2 "-L../lib" = "-L") by reflexivity.
  assert (HnI : PyStr.take 2 "-o" <> "-I") by discriminate.
  assert (HnL : PyStr.take 2 "-o" <> "-L") by discriminate.
  split; [exact H2|]. split; [exact HL|].
  split; [exact (proj1 (Hspec 2 "-L../lib" H2) (or_intror HL))|].
  split; [exact H1|]. split; [exact HnI|]. split; [exact HnL|].
  exact (proj2 (Hspec 1 "-o" H1) HnI HnL).
Defined.

(** C5, as stated, fails: with the relative build directory [build],
    the second pass prefixes the directory once more. *)
Lemma rewriting_twice_relative_build_dir :
  (compute_parameters_with_absolute_paths 1%positive "build"
     {[ 1%positive := ["-Ifoo"] ]}).2 !! 1%positive
  = Some ["-Ibuild/foo"]
  /\ (compute_parameters_with_absolute_paths 1%positive "build"
        (compute_parameters_with_absolute_paths 1%positive "build"
           {[ 1%positive := ["-Ifoo"] ]}).2).2 !! 1%positive
     = Some ["-Ibuild/build/foo"]
  /\ compute_parameters_with_absolute_paths 1%positive "build"
       (compute_parameters_with_absolute_paths 1%positive "build"
          {[ 1%positive := ["-Ifoo"] ]}).2
     <> compute_parameters_with_absolute_paths 1%positive "build"
          {[ 1%positive := ["-Ifoo"] ]}.
Proof.
  split; [reflexivity|]. split; [reflexivity|].
  intros Heq. apply (f_equal (fun r => r.2 !! 1%positive)) in Heq.
  vm_compute in Heq. discriminate Heq.
Qed.

(** C5, amended. When the build directory is absolute, or normalises
    to [.], a second call with the same build directory changes
    nothing. Whatever the build directory, a [-I] or [-L] token whose
    path is already absolute keeps its marker and has its path
    normalised, nothing more. *)
Theorem compute_parameters_idempotent parameter_list build_dir h :
  posixpath.isabs build_dir = true \/ posixpath.normpath build_dir = "." ->
  compute_parameters_with_absolute_paths parameter_list build_dir
    (compute_parameters_with_absolute_paths parameter_list build_dir h).2
  = compute_parameters_with_absolute_paths parameter_list build_dir h
  /\ forall dir idx i,
    (h !!! parameter_list) !! idx = Some i ->
    PyStr.take 2 i = "-I" \/ PyStr.take 2 i = "-L" ->
    posixpath.isabs (PyStr.drop 2 i) = true ->
    ((compute_parameters_with_absolute_paths parameter_list dir h).2
       !!! parameter_list) !! idx
    = Some (PyStr.take 2 i +:+ posixpath.normpath (PyStr.drop 2 i)).
Proof.
  intros Hdir. split.
  - destruct (compute_parameters_store parameter_list build_dir h)
      as (Hret & Hdom & Hframe & Hcontents).
    set (h1 := (compute_parameters_with_absolute_paths
                  parameter_list build_dir h).2) in *.
    destruct (compute_parameters_store parameter_list build_dir h1)
      as (Hret' & Hdom' & Hframe' & Hcontents').
    rewrite (surjective_pairing
      (compute_parameters_with_absolute_paths parameter_list build_dir h1)).
    rewrite (surjective_pairing
      (compute_parameters_with_absolute_paths parameter_list build_dir h)).
    rewrite Hret, Hret'. f_equal. fold h1.
    apply (store_eq_at _ _ parameter_list); [done|done|].
    rewrite Hcontents', Hcontents, <- list_fmap_compose.
    apply list_fmap_ext. intros _ i _. simpl. by apply rewritten_idemp.
  - intros dir idx i Hidx Hi%is_path_arg_iff Habs.
    destruct (compute_parameters_store parameter_list dir h)
      as (_ & _ & _ & Hcontents).
    rewrite Hcontents, list_lookup_fmap, Hidx. simpl.
    rewrite (rewritten_path_arg _ _ Hi). unfold absolute_arg.
    by rewrite join_absolute_r.
Qed.

Lemma compute_parameters_idempotent_witness :
  (posixpath.isabs "/build" = true \/ posixpath.normpath "/build" = ".")
  /\ compute_parameters_with_absolute_paths 1%positive "/build"
       (compute_parameters_with_absolute_paths 1%positive "/build"
          {[ 1%positive := ["-Iinc"; "-L/opt/lib/../sdcc"; "-c"] ]}).2
     = compute_parameters_with_absolute_paths 1%positive "/build"
         {[ 1%positive := ["-Iinc"; "-L/opt/lib/../sdcc"; "-c"] ]}
  /\ (({[ 1%positive := ["-Iinc"; "-L/opt/lib/../sdcc"; "-c"] ]} : store)
        !!! 1%positive) !! 1 = Some "-L/opt/lib/../sdcc"
  /\ (PyStr.take 2 "-L/opt/lib/../sdcc" = "-I"
      \/ PyStr.take 2 "-L/opt/lib/../sdcc" = "-L")
  /\ posixpath.isabs (PyStr.drop 2 "-L/opt/lib/../sdcc") = true
  /\ ((compute_parameters_with_absolute_paths 1%positive "/build"
         {[ 1%positive := ["-Iinc"; "-L/opt/lib/../sdcc"; "-c"] ]}).2
        !!! 1%positive) !! 1
     = Some "-L/opt/sdcc".
Proof.
  assert (Hdir : posixpath.isabs "/build" = true
                 \/ posixpath.normpath "/build" = ".") by (left; reflexivity).
  assert (Hidx : (({[ 1%positive := ["-Iinc"; "-L/opt/lib/../sdcc"; "-c"] ]}
                    : store) !!! 1%positive) !! 1
                 = Some "-L/opt/lib/../sdcc") by reflexivity.
  assert (Hi : PyStr.take 2 "-L/opt/lib/../sdcc" = "-I"
               \/ PyStr.take 2 "-L/opt/lib/../sdcc" = "-L")
    by (right; reflexivity).
  assert (Habs : posixpath.isabs (PyStr.drop 2 "-L/opt/lib/../sdcc") = true)
    by reflexivity.
  destruct (compute_parameters_idempotent 1%positive "/build"
    {[ 1%positive := ["-Iinc"; "-L/opt/lib/../sdcc"; "-c"] ]} Hdir)
    as [Htwice Hkeep].
  split; [exact Hdir|]. split; [exact Htwice|]. split; [exact Hidx|].
  split; [exact Hi|]. split; [exact Habs|].
  exact (Hkeep "/build" 1 "-L/opt/lib/../sdcc" Hidx Hi Habs).
Defined.

End RewriterClaims.


(* ===================================================================== *)
(** ** The path rewriter: further properties *)
(* ===================================================================== *)

Section RewriterExtras.
Import Py Sdcc.
#[local] Arguments String.append : simpl nomatch.
Implicit Types (h : store) (parameter_list q : loc) (build_dir i : string).

Lemma compute_parameters_lookup parameter_list build_dir h l :
  h !! parameter_list = Some l ->
  (compute_parameters_with_absolute_paths parameter_list build_dir h).2
    !! parameter_list
  = Some (rewritten build_dir <$> l).
Proof.
  intros Hl.
  destruct (compute_parameters_store parameter_list build_dir h)
    as (_ & Hdom & _ & Hcontents).
  assert (Hin : parameter_list
                ∈ dom (compute_parameters_with_absolute_paths
                         parameter_list build_dir h).2).
  { rewrite Hdom. apply elem_of_dom. by eexists. }
  apply elem_of_dom in Hin as [l' Hl']. rewrite Hl'. f_equal.
  rewrite !lookup_total_store, Hl', Hl in Hcontents. done.
Qed.

Lemma take_rewritten build_dir i :
  PyStr.take 2 (rewritten build_dir i) = PyStr.take 2 i.
Proof.
  destruct (is_path_arg i) eqn:Hi.
  - rewrite (rewritten_path_arg _ _ Hi).
    by destruct (absolute_arg_path_arg build_dir i Hi) as (_ & ? & _).
  - by rewrite (rewritten_other _ _ Hi).
Qed.

Lemma is_path_arg_rewritten build_dir i :
  is_path_arg (rewritten build_dir i) = is_path_arg i.
Proof. unfold is_path_arg. by rewrite take_rewritten. Qed.

Lemma normpath_not_empty path : posixpath.normpath path <> "".
Proof.
  destruct (decide (path = "")) as [->|Hne]; [done|].
  rewrite (normpath_unfold path Hne). apply assemble_not_empty.
Qed.

(** The path of a rewritten [-I]/[-L] token. *)
Lemma drop_rewritten build_dir i :
  is_path_arg i = true ->
  PyStr.drop 2 (rewritten build_dir i)
  = posixpath.normpath (posixpath.join build_dir (PyStr.drop 2 i)).
Proof.
  intros Hi. rewrite (rewritten_path_arg _ _ Hi).
  by destruct (absolute_arg_path_arg build_dir i Hi) as (_ & _ & ?).
Qed.

(** Once anchored to an absolute directory, a token is left alone by a
    pass with any directory. *)
Lemma rewritten_anchored build_dir dir i :
  posixpath.isabs build_dir = true ->
  rewritten dir (rewritten build_dir i) = rewritten build_dir i.
Proof.
  intros Habs. destruct (is_path_arg i) eqn:Hi.
  2:{ rewrite (rewritten_other build_dir i Hi). by apply rewritten_other. }
  assert (Hi' : is_path_arg (rewritten build_dir i) = true)
    by by rewrite is_path_arg_rewritten.
  rewrite (rewritten_path_arg dir _ Hi'). unfold absolute_arg at 1.
  rewrite take_rewritten, (drop_rewritten _ _ Hi).
  rewrite join_absolute_r by by apply isabs_normpath, isabs_join.
  rewrite normpath_idemp. by rewrite (rewritten_path_arg _ _ Hi).
Qed.

(** X1. A list with no token that starts with [-I] or [-L] is not
    written to at all: the call returns its argument and the store it
    found. *)
Theorem compute_parameters_without_path_args parameter_list build_dir h :
  Forall (fun i => PyStr.take 2 i <> "-I" /\ PyStr.take 2 i <> "-L")
    (h !!! parameter_list) ->
  compute_parameters_with_absolute_paths parameter_list build_dir h
  = (parameter_list, h).
Proof.
  intros Hall.
  destruct (compute_parameters_store parameter_list build_dir h)
    as (Hret & Hdom & Hframe & Hcontents).
  rewrite (surjective_pairing
    (compute_parameters_with_absolute_paths parameter_list build_dir h)).
  rewrite Hret. f_equal.
  apply (store_eq_at _ _ parameter_list); [done|done|].
  rewrite Hcontents. rewrite <- (list_fmap_id (h !!! parameter_list)) at 2.
  apply Forall_fmap_ext_1. eapply Forall_impl; [exact Hall|].
  intros i [HI HL]. simpl. apply rewritten_other.
  destruct (is_path_arg i) eqn:Hi; [|done].
  apply is_path_arg_iff in Hi as [?|?]; done.
Qed.

Lemma compute_parameters_without_path_args_witness :
  Forall (fun i => PyStr.take 2 i <> "-I" /\ PyStr.take 2 i <> "-L")
    (({[ 1%positive := ["--debug"; "-o"; "-"; ""; "-i/x"] ]} : store)
       !!! 1%positive)
  /\ compute_parameters_with_absolute_paths 1%positive "/build"
       {[ 1%positive := ["--debug"; "-o"; "-"; ""; "-i/x"] ]}
     = (1%positive, {[ 1%positive := ["--debug"; "-o"; "-"; ""; "-i/x"] ]}).
Proof.
  assert (Hall : Forall
    (fun i => PyStr.take 2 i <> "-I" /\ PyStr.take 2 i <> "-L")
    (({[ 1%positive := ["--debug"; "-o"; "-"; ""; "-i/x"] ]} : store)
       !!! 1%positive)).
  { change (Forall (fun i => PyStr.take 2 i <> "-I" /\ PyStr.take 2 i <> "-L")
              ["--debug"; "-o"; "-"; ""; "-i/x"]).
    repeat constructor; discriminate. }
  split; [exact Hall|].
  exact (compute_parameters_without_path_args 1%positive "/build" _ Hall).
Defined.

(** X2. The call never changes the first two characters of a token:
    markers stay markers, and no other token becomes a path argument. *)
Theorem compute_parameters_keeps_markers parameter_list build_dir h :
  PyStr.take 2
    <$> ((compute_parameters_with_absolute_paths parameter_list build_dir h).2
           !!! parameter_list)
  = PyStr.take 2 <$> (h !!! parameter_list).
Proof.
  destruct (compute_parameters_store parameter_list build_dir h)
    as (_ & _ & _ & Hcontents).
  rewrite Hcontents, <- list_fmap_compose.
  apply list_fmap_ext. intros _ i _. simpl. apply take_rewritten.
Qed.

(** X3. After the call, the path of every [-I]/[-L] token of the list
    is in normal form: it is not empty and [normpath] maps it to
    itself. *)
Theorem compute_parameters_paths_normalized
    parameter_list build_dir h idx i' :
  ((compute_parameters_with_absolute_paths parameter_list build_dir h).2
     !!! parameter_list) !! idx = Some i' ->
  PyStr.take 2 i' = "-I" \/ PyStr.take 2 i' = "-L" ->
  PyStr.drop 2 i' <> ""
  /\ posixpath.normpath (PyStr.drop 2 i') = PyStr.drop 2 i'.
Proof.
  intros Hidx Hi'%is_path_arg_iff.
  destruct (compute_parameters_store parameter_list build_dir h)
    as (_ & _ & _ & Hcontents).
  rewrite Hcontents in Hidx.
  apply list_lookup_fmap_Some in Hidx as (i & -> & Hi).
  rewrite is_path_arg_rewritten in Hi'. rewrite (drop_rewritten _ _ Hi').
  split; [apply normpath_not_empty | apply normpath_idemp].
Qed.

Lemma compute_parameters_paths_normalized_witness :
  ((compute_parameters_with_absolute_paths 1%positive "out/../obj//"
      {[ 1%positive := ["-c"; "-L./lib/"] ]}).2 !!! 1%positive) !! 1
  = Some "-Lobj/lib"
  /\ (PyStr.take 2 "-Lobj/lib" = "-I" \/ PyStr.take 2 "-Lobj/lib" = "-L")
  /\ PyStr.drop 2 "-Lobj/lib" <> ""
  /\ posixpath.normpath (PyStr.drop 2 "-Lobj/lib") = PyStr.drop 2 "-Lobj/lib".
Proof.
  assert (Hidx : ((compute_parameters_with_absolute_paths 1%positive
      "out/../obj//" {[ 1%positive := ["-c"; "-L./lib/"] ]}).2
      !!! 1%positive) !! 1 = Some "-Lobj/lib") by reflexivity.
  assert (Hi : PyStr.take 2 "-Lobj/lib" = "-I"
               \/ PyStr.take 2 "-Lobj/lib" = "-L") by (right; reflexivity).
  split; [exact Hidx|]. split; [exact Hi|].
  exact (compute_parameters_paths_normalized 1%positive "out/../obj//"
           _ 1 "-Lobj/lib" Hidx Hi).
Defined.

(** X4. With an absolute build directory, the path of every [-I]/[-L]
    token of the list is absolute after the call. *)
Theorem compute_parameters_paths_absolute
    parameter_list build_dir h idx i' :
  posixpath.isabs build_dir = true ->
  ((compute_parameters_with_absolute_paths parameter_list build_dir h).2
     !!! parameter_list) !! idx = Some i' ->
  PyStr.take 2 i' = "-I" \/ PyStr.take 2 i' = "-L" ->
  posixpath.isabs (PyStr.drop 2 i') = true.
Proof.
  intros Habs Hidx Hi'%is_path_arg_iff.
  destruct (compute_parameters_store parameter_list build_dir h)
    as (_ & _ & _ & Hcontents).
  rewrite Hcontents in Hidx.
  apply list_lookup_fmap_Some in Hidx as (i & -> & Hi).
  rewrite is_path_arg_rewritten in Hi'. rewrite (drop_rewritten _ _ Hi').
  by apply isabs_normpath, isabs_join.
Qed.

Lemma compute_parameters_paths_absolute_witness :
  posixpath.isabs "/build" = true
  /\ ((compute_parameters_with_absolute_paths 1%positive "/build"
         {[ 1%positive := ["-I"; "-I../../.."] ]}).2 !!! 1%positive) !! 1
     = Some "-I/"
  /\ (PyStr.take 2 "-I/" = "-I" \/ PyStr.take 2 "-I/" = "-L")
  /\ posixpath.isabs (PyStr.drop 2 "-I/") = true.
Proof.
  assert (Habs : posixpath.isabs "/build" = true) by reflexivity.
  assert (Hidx : ((compute_parameters_with_absolute_paths 1%positive "/build"
      {[ 1%positive := ["-I"; "-I../../.."] ]}).2 !!! 1%positive) !! 1
      = Some "-I/") by reflexivity.
  assert (Hi : PyStr.take 2 "-I/" = "-I" \/ PyStr.take 2 "-I/" = "-L")
    by (left; reflexivity).
  split; [exact Habs|]. split; [exact Hidx|]. split; [exact Hi|].
  exact (compute_parameters_paths_absolute 1%positive "/build" _ 1 "-I/"
           Habs Hidx Hi).
Defined.

(** X5. After a call with an absolute build directory, a further call
    with any build directory, absolute or not, changes nothing. *)
Theorem compute_parameters_anchored_once parameter_list build_dir dir h :
  posixpath.isabs build_dir = true ->
  compute_parameters_with_absolute_paths parameter_list dir
    (compute_parameters_with_absolute_paths parameter_list build_dir h).2
  = compute_parameters_with_absolute_paths parameter_list build_dir h.
Proof.
  intros Habs.
  destruct (compute_parameters_store parameter_list build_dir h)
    as (Hret & Hdom & Hframe & Hcontents).
  set (h1 := (compute_parameters_with_absolute_paths
                parameter_list build_dir h).2) in *.
  destruct (compute_parameters_store parameter_list dir h1)
    as (Hret' & Hdom' & Hframe' & Hcontents').
  rewrite (surjective_pairing
    (compute_parameters_with_absolute_paths parameter_list dir h1)).
  rewrite (surjective_pairing
    (compute_parameters_with_absolute_paths parameter_list build_dir h)).
  rewrite Hret, Hret'. f_equal. fold h1.
  apply (store_eq_at _ _ parameter_list); [done|done|].
  rewrite Hcontents', Hcontents, <- list_fmap_compose.
  apply list_fmap_ext. intros _ i _. simpl. by apply rewritten_anchored.
Qed.

Lemma compute_parameters_anchored_once_witness :
  posixpath.isabs "/build" = true
  /\ compute_parameters_with_absolute_paths 1%positive "elsewhere"
       (compute_parameters_with_absolute_paths 1%positive "/build"
          {[ 1%positive := ["-Iinc"; "-Wall"; "-L../lib"] ]}).2
     = compute_parameters_with_absolute_paths 1%positive "/build"
         {[ 1%positive := ["-Iinc"; "-Wall"; "-L../lib"] ]}.
Proof.
  assert (Habs : posixpath.isabs "/build" = true) by reflexivity.
  split; [exact Habs|].
  exact (compute_parameters_anchored_once 1%positive "/build" "elsewhere"
           _ Habs).
Defined.

(** X6. The token [get_include_args] builds is always one the rewriter
    anchors: a list holding it holds, after the call, [-I] followed by
    the normalised join of the build directory and the path ([.] for
    the empty path). *)
Theorem include_args_are_anchored path is_system build_dir q h :
  (compute_parameters_with_absolute_paths q build_dir
     (<[q := get_include_args path is_system]> h)).2 !! q
  = Some ["-I" +:+ posixpath.normpath
                     (posixpath.join build_dir
                        (if bool_decide (path = "") then "." else path))].
Proof.
  rewrite (compute_parameters_lookup q build_dir _
             (get_include_args path is_system))
    by apply lookup_insert_eq.
  unfold get_include_args. reflexivity.
Qed.

End RewriterExtras.


(* ===================================================================== *)
(** ** The sanity check: further properties *)
(* ===================================================================== *)

Section SanityCheckExtras.
Import Py Sdcc.
#[local] Arguments String.append : simpl nomatch.
Context {Environment : Type} (base : Base Environment).
Implicit Types (self : SdccCompiler) (w : world) (tr : list event).

(** Splits the check along the toolchain's flags and every test it makes;
    the trace of each case is an explicit list. *)
Ltac split_check self Hrun :=
  revert Hrun;
  unfold _sanity_check_impl, bind, debug, write_file, call_Popen_safe,
    call_subprocess_run, ret, raise;
  destruct (is_cross self) eqn:?; [destruct (exe_wrapper self) eqn:?|];
  repeat (case_match; simplify_eq/=; try done); intros; simplify_eq.

Ltac return_codes :=
  repeat match goal with
  | H : negb _ = true |- _ => apply negb_true_iff in H
  | H : negb _ = false |- _ => apply negb_false_iff in H
  | H : (_ =? _)%Z = true |- _ => apply Z.eqb_eq in H
  | H : (_ =? _)%Z = false |- _ => apply Z.eqb_neq in H
  end.

Ltac find_event H :=
  repeat (apply elem_of_cons in H as [H|H]; [try discriminate H|]);
  try (by apply elem_of_nil in H).

(** Where [Popen_safe] is called, it is called like this. *)
Lemma popen_in_trace self work_dir environment sname code w r tr
    cmdlist cwd out :
  _sanity_check_impl base self work_dir environment sname code w = (r, tr) ->
  Popen_safe cmdlist cwd out ∈ tr ->
  cwd = work_dir
  /\ out = os_Popen_safe w cmdlist cwd
  /\ os_write w (posixpath.join work_dir sname) code = Ok tt
  /\ cmdlist
     = exelist self ++ [sname]
       ++ get_output_args base self
            ((if is_cross self
              then hd "" (PyStr.rsplit1 "."%char sname) +:+ "_cross"
              else hd "" (PyStr.rsplit1 "."%char sname)) +:+ ".out")
       ++ (_get_basic_compiler_args base self environment
             (if is_cross self
              then match exe_wrapper self with
                   | None => COMPILE
                   | Some _ => LINK
                   end
              else LINK)).1
       ++ linker_to_compiler_args base self
            (_get_basic_compiler_args base self environment
               (if is_cross self
                then match exe_wrapper self with
                     | None => COMPILE
                     | Some _ => LINK
                     end
                else LINK)).2.
Proof.
  intros Hrun Hin. split_check self Hrun.
  all: find_event Hin; simplify_eq.
  all: repeat match goal with
       | H : _get_basic_compiler_args _ _ _ _ = _ |- _ => rewrite H
       | H : os_Popen_safe _ _ _ = _ |- _ => rewrite H
       | u : unit |- _ => destruct u
       end; done.
Qed.

(** Where [subprocess.run] is called, it is called like this, and the
    compiler has exited with zero before. *)
Lemma run_in_trace self work_dir environment sname code w r tr cmdlist o :
  _sanity_check_impl base self work_dir environment sname code w = (r, tr) ->
  subprocess_run cmdlist o ∈ tr ->
  o = os_run w cmdlist
  /\ cmdlist
     = (if is_cross self
        then match exe_wrapper self with
             | None => []
             | Some wrapper => get_command wrapper
             end
        else [])
       ++ [posixpath.join work_dir
             ((if is_cross self
               then hd "" (PyStr.rsplit1 "."%char sname) +:+ "_cross"
               else hd "" (PyStr.rsplit1 "."%char sname)) +:+ ".out")]
  /\ (is_cross self = true -> exe_wrapper self <> None).
Proof.
  intros Hrun Hin. split_check self Hrun.
  all: find_event Hin; simplify_eq.
  all: repeat match goal with
       | H : os_run _ _ = _ |- _ => rewrite H
       end; done.
Qed.

(** X7. Wherever the compiler is started, it is started in [work_dir]
    with the command [exelist + [sname] + output args + cargs + largs],
    the flags from [_get_basic_compiler_args] last. Their mode is [LINK]
    unless the toolchain is cross-compiling without a wrapper. *)
Theorem compile_invocation self work_dir environment sname code w :
  forall r tr,
    _sanity_check_impl base self work_dir environment sname code w = (r, tr) ->
    forall cmdlist cwd out,
      Popen_safe cmdlist cwd out ∈ tr ->
      cwd = work_dir
      /\ cmdlist
         = exelist self ++ [sname]
           ++ get_output_args base self
                ((if is_cross self
                  then hd "" (PyStr.rsplit1 "."%char sname) +:+ "_cross"
                  else hd "" (PyStr.rsplit1 "."%char sname)) +:+ ".out")
           ++ (_get_basic_compiler_args base self environment
                 (if is_cross self
                  then match exe_wrapper self with
                       | None => COMPILE
                       | Some _ => LINK
                       end
                  else LINK)).1
           ++ linker_to_compiler_args base self
                (_get_basic_compiler_args base self environment
                   (if is_cross self
                    then match exe_wrapper self with
                         | None => COMPILE
                         | Some _ => LINK
                         end
                    else LINK)).2.
Proof.
  intros r tr Hrun cmdlist cwd out Hin.
  by destruct (popen_in_trace _ _ _ _ _ _ _ _ _ _ _ Hrun Hin)
    as (? & _ & _ & ?).
Qed.

(** X8. Wherever the probe is run, the command is the path of the binary
    under [work_dir], the binary the compiler was told to write, after
    the wrapper's command when cross-compiling. A native toolchain runs
    the binary alone, whatever [exe_wrapper] holds. *)
Theorem run_invocation self work_dir environment sname code w :
  forall r tr,
    _sanity_check_impl base self work_dir environment sname code w = (r, tr) ->
    forall cmdlist o,
      subprocess_run cmdlist o ∈ tr ->
      cmdlist
      = (if is_cross self
         then match exe_wrapper self with
              | None => []
              | Some wrapper => get_command wrapper
              end
         else [])
        ++ [posixpath.join work_dir
              ((if is_cross self
                then hd "" (PyStr.rsplit1 "."%char sname) +:+ "_cross"
                else hd "" (PyStr.rsplit1 "."%char sname)) +:+ ".out")]
      /\ (is_cross self = true -> exe_wrapper self <> None).
Proof.
  intros r tr Hrun cmdlist o Hin.
  by destruct (run_in_trace _ _ _ _ _ _ _ _ _ _ Hrun Hin) as (_ & ? & ?).
Qed.

(** X9. The probe source is written in every check, once: to
    [work_dir]/[sname], with the text given, after two log lines and
    before anything else. *)
Theorem probe_written_once self work_dir environment sname code w :
  forall r tr,
    _sanity_check_impl base self work_dir environment sname code w = (r, tr) ->
    exists line1 line2 rest,
      tr = mlog_debug line1 :: mlog_debug line2
           :: open_write (posixpath.join work_dir sname) code
                (os_write w (posixpath.join work_dir sname) code)
           :: rest
      /\ List.filter is_open_write rest = [].
Proof.
  intros r tr Hrun. split_check self Hrun.
  all: repeat match goal with
       | H : os_write _ _ _ = _ |- _ => rewrite H
       end.
  all: eexists _, _, _; split; reflexivity.
Qed.

(** X10. A check starts at most one compiler process and at most one
    probe process. *)
Theorem one_process_per_phase self work_dir environment sname code w :
  forall r tr,
    _sanity_check_impl base self work_dir environment sname code w = (r, tr) ->
    length (List.filter is_Popen_safe tr) <= 1
    /\ length (List.filter is_subprocess_run tr) <= 1.
Proof.
  intros r tr Hrun. split_check self Hrun.
  all: simpl; lia.
Qed.

(** X11. An exception from writing the probe source or from starting the
    compiler leaves the check as it is, and nothing later is started:
    after a failed write no compiler and no probe, after a failed
    compiler start no probe. *)
Theorem world_failures_propagate self work_dir environment sname code w :
  forall r tr,
    _sanity_check_impl base self work_dir environment sname code w = (r, tr) ->
    (forall path text e,
       open_write path text (Raise e) ∈ tr ->
       r = Raise e /\ List.filter is_Popen_safe tr = []
       /\ List.filter is_subprocess_run tr = [])
    /\ (forall cmdlist cwd e,
       Popen_safe cmdlist cwd (Raise e) ∈ tr ->
       r = Raise e /\ List.filter is_subprocess_run tr = []).
Proof.
  intros r tr Hrun. split.
  - intros path text e Hin. split_check self Hrun.
    all: by find_event Hin; simplify_eq.
  - intros cmdlist cwd e Hin. split_check self Hrun.
    all: by find_event Hin; simplify_eq.
Qed.

(** X12. The check returns normally exactly when the compiler exited
    with zero and either the toolchain is cross-compiling without a
    wrapper or the probe ran and exited with zero. *)
Theorem sanity_check_succeeds_iff self work_dir environment sname code w :
  forall r tr,
    _sanity_check_impl base self work_dir environment sname code w = (r, tr) ->
    r = Ok tt
    <-> (exists cmdlist cwd stdo stde,
           Popen_safe cmdlist cwd (Ok (0%Z, stdo, stde)) ∈ tr)
        /\ ((is_cross self = true /\ exe_wrapper self = None)
            \/ exists cmdlist, subprocess_run cmdlist (RunCompleted 0) ∈ tr).
Proof.
  intros r tr Hrun. split_check self Hrun; return_codes; subst.
  all: split.
  all: lazymatch goal with
       | |- Raise _ = Ok _ -> _ => discriminate
       | |- Ok _ = Ok _ -> _ =>
           intros _; split;
           [ eexists _, _, _, _; do 3 right; left
           | first [ left; by split
                   | right; eexists; do 11 right; left ] ]
       | |- _ -> Ok _ = Ok _ => done
       | |- _ -> Raise _ = Ok _ =>
           intros [(c & d & so & se & Hin) Hor];
           find_event Hin; simplify_eq;
           destruct Hor as [[? ?]|[c' Hc]]; try done;
           find_event Hc; simplify_eq
       end.
Qed.


End SanityCheckExtras.

(* ===================================================================== *)
(** ** The name of the probe binary *)
(* ===================================================================== *)

Section BinaryName.
Import Py Sdcc.
#[local] Arguments String.append : simpl nomatch.
Context {Environment : Type} (base : Base Environment).

Lemma join_split sep s : PyStr.join sep (PyStr.split sep s) = s.
Proof.
  induction s as [|a s IH]; [done|].
  pose proof (split_not_nil sep s) as Hne. simpl.
  case_bool_decide as Ha.
  - subst a. destruct (PyStr.split sep s) as [|w ws]; [done|].
    change (PyStr.join sep ("" :: w :: ws))
      with ("" +:+ String sep (PyStr.join sep (w :: ws))).
    by rewrite IH.
  - destruct (PyStr.split sep s) as [|w [|w' ws]]; [done|..].
    + simpl in *. by rewrite IH.
    + change (PyStr.join sep (String a w :: w' :: ws))
        with (String a (w +:+ String sep (PyStr.join sep (w' :: ws)))).
      by rewrite <- IH.
Qed.

Lemma rsplit1_without_sep sep s :
  PyStr.contains sep s = false -> PyStr.rsplit1 sep s = [s].
Proof.
  intros Hs. unfold PyStr.rsplit1. by rewrite (split_without_sep _ _ Hs).
Qed.

Lemma rsplit1_last_sep sep stem ext :
  PyStr.contains sep ext = false ->
  PyStr.rsplit1 sep (stem +:+ String sep ext) = [stem; ext].
Proof.
  intros Hext. unfold PyStr.rsplit1.
  rewrite split_app_sep, (split_without_sep _ _ Hext).
  pose proof (join_split sep stem) as Hjoin.
  pose proof (split_not_nil sep stem) as Hne.
  destruct (PyStr.split sep stem) as [|w [|w' ws]]; [done|..].
  - simpl in *. by rewrite Hjoin.
  - cbn [app].
    change (w :: w' :: ws ++ [ext]) with ((w :: w' :: ws) ++ [ext]).
    by rewrite removelast_last, last_last, Hjoin.
Qed.

(** The stem of the source name: all of it when it has no dot, what is
    before its last dot otherwise. *)
Lemma rsplit1_stem sname stem :
  (exists ext, PyStr.contains "." ext = false
               /\ sname = stem +:+ String "." ext)
  \/ (PyStr.contains "." sname = false /\ stem = sname) ->
  hd "" (PyStr.rsplit1 "." sname) = stem.
Proof.
  intros [(ext & Hext & ->)|[Hs ->]].
  - by rewrite rsplit1_last_sep.
  - by rewrite rsplit1_without_sep.
Qed.

(** X14. The probe binary is named after the source: the source name
    without its last extension (all of it when it has no dot), then
    [_cross] for a cross toolchain, then [.out]. That name goes to the
    compiler's output arguments, and its path under [work_dir] is the
    last word of the command that runs the probe. *)
Theorem probe_binary_name self work_dir environment sname stem code w :
  (exists ext, PyStr.contains "." ext = false
               /\ sname = stem +:+ String "." ext)
  \/ (PyStr.contains "." sname = false /\ stem = sname) ->
  forall r tr,
    _sanity_check_impl base self work_dir environment sname code w = (r, tr) ->
    (forall cmdlist cwd out,
       Popen_safe cmdlist cwd out ∈ tr ->
       exists flags,
         cmdlist
         = exelist self ++ [sname]
           ++ get_output_args base self
                ((if is_cross self then stem +:+ "_cross" else stem)
                 +:+ ".out")
           ++ flags)
    /\ (forall cmdlist o,
       subprocess_run cmdlist o ∈ tr ->
       last cmdlist
       = Some (posixpath.join work_dir
                 ((if is_cross self then stem +:+ "_cross" else stem)
                  +:+ ".out"))).
Proof.
  intros Hstem%rsplit1_stem r tr Hrun. split.
  - intros cmdlist cwd out Hin.
    destruct (popen_in_trace _ _ _ _ _ _ _ _ _ _ _ _ Hrun Hin)
      as (_ & _ & _ & ->).
    rewrite Hstem. eexists. reflexivity.
  - intros cmdlist o Hin.
    destruct (run_in_trace _ _ _ _ _ _ _ _ _ _ _ Hrun Hin) as (_ & -> & _).
    rewrite Hstem. apply last_snoc.
Qed.

End BinaryName.

Section SanityCheckExtrasWitnesses.
Import Py Sdcc.

Lemma compile_invocation_witness :
  Popen_safe
    ["sdcc"; "sanitycheckc.c"; "-o"; "sanitycheckc_cross.out"; "--nostdlib"]
    "/tmp/w" (Ok (0%Z, "", ""))
    ∈ (Samples.check Samples.cross_with_wrapper
         (Samples.world_of 0 (RunCompleted 0))).2
  /\ "/tmp/w" = "/tmp/w"
  /\ ["sdcc"; "sanitycheckc.c"; "-o"; "sanitycheckc_cross.out"; "--nostdlib"]
     = ["sdcc"] ++ ["sanitycheckc.c"] ++ ["-o"; "sanitycheckc_cross.out"]
       ++ [] ++ ["--nostdlib"].
Proof.
  assert (Hin : Popen_safe
    ["sdcc"; "sanitycheckc.c"; "-o"; "sanitycheckc_cross.out"; "--nostdlib"]
    "/tmp/w" (Ok (0%Z, "", ""))
    ∈ (Samples.check Samples.cross_with_wrapper
         (Samples.world_of 0 (RunCompleted 0))).2).
  { vm_compute. do 3 right. left. }
  split; [exact Hin|].
  exact (compile_invocation Samples.base Samples.cross_with_wrapper "/tmp/w"
           tt "sanitycheckc.c" "int main;"
           (Samples.world_of 0 (RunCompleted 0)) _ _ (surjective_pairing _)
           _ _ _ Hin).
Defined.

Lemma run_invocation_witness :
  subprocess_run ["ucsim"; "/tmp/w/sanitycheckc_cross.out"] (RunCompleted 0)
    ∈ (Samples.check Samples.cross_with_wrapper
         (Samples.world_of 0 (RunCompleted 0))).2
  /\ ["ucsim"; "/tmp/w/sanitycheckc_cross.out"]
     = ["ucsim"] ++ ["/tmp/w/sanitycheckc_cross.out"]
  /\ (is_cross Samples.cross_with_wrapper = true ->
      exe_wrapper Samples.cross_with_wrapper <> None).
Proof.
  assert (Hin : subprocess_run ["ucsim"; "/tmp/w/sanitycheckc_cross.out"]
    (RunCompleted 0)
    ∈ (Samples.check Samples.cross_with_wrapper
         (Samples.world_of 0 (RunCompleted 0))).2).
  { vm_compute. do 11 right. left. }
  split; [exact Hin|].
  exact (run_invocation Samples.base Samples.cross_with_wrapper "/tmp/w"
           tt "sanitycheckc.c" "int main;"
           (Samples.world_of 0 (RunCompleted 0)) _ _ (surjective_pairing _)
           _ _ Hin).
Defined.

Lemma probe_written_once_witness :
  exists line1 line2 rest,
    (Samples.check Samples.native (Samples.world_of 1 (RunCompleted 0))).2
    = mlog_debug line1 :: mlog_debug line2
      :: open_write "/tmp/w/sanitycheckc.c" "int main;" (Ok tt) :: rest
    /\ List.filter is_open_write rest = [].
Proof.
  exact (probe_written_once Samples.base Samples.native "/tmp/w" tt
           "sanitycheckc.c" "int main;" (Samples.world_of 1 (RunCompleted 0))
           _ _ (surjective_pairing _)).
Defined.

Lemma one_process_per_phase_witness :
  length (List.filter is_Popen_safe
            (Samples.check Samples.native
               (Samples.world_of 0 (RunCompleted 2))).2) <= 1
  /\ length (List.filter is_subprocess_run
               (Samples.check Samples.native
                  (Samples.world_of 0 (RunCompleted 2))).2) <= 1.
Proof.
  exact (one_process_per_phase Samples.base Samples.native "/tmp/w" tt
           "sanitycheckc.c" "int main;" (Samples.world_of 0 (RunCompleted 2))
           _ _ (surjective_pairing _)).
Defined.

Lemma world_failures_propagate_witness :
  (open_write "/tmp/w/sanitycheckc.c" "int main;"
     (Raise (OSError "[Errno 30] Read-only file system"))
     ∈ (Samples.check Samples.native Samples.world_read_only).2
   /\ (Samples.check Samples.native Samples.world_read_only).1
      = Raise (OSError "[Errno 30] Read-only file system")
   /\ List.filter is_Popen_safe
        (Samples.check Samples.native Samples.world_read_only).2 = []
   /\ List.filter is_subprocess_run
        (Samples.check Samples.native Samples.world_read_only).2 = [])
  /\ (Popen_safe ["sdcc"; "sanitycheckc.c"; "-o"; "sanitycheckc.out";
                  "--nostdlib"] "/tmp/w"
        (Raise (OSError "[Errno 2] No such file or directory: 'sdcc'"))
        ∈ (Samples.check Samples.native Samples.world_no_compiler).2
      /\ (Samples.check Samples.native Samples.world_no_compiler).1
         = Raise (OSError "[Errno 2] No such file or directory: 'sdcc'")
      /\ List.filter is_subprocess_run
           (Samples.check Samples.native Samples.world_no_compiler).2 = []).
Proof.
  split.
  - assert (Hin : open_write "/tmp/w/sanitycheckc.c" "int main;"
       (Raise (OSError "[Errno 30] Read-only file system"))
       ∈ (Samples.check Samples.native Samples.world_read_only).2).
    { vm_compute. do 2 right. left. }
    split; [exact Hin|].
    exact (proj1 (world_failures_propagate Samples.base Samples.native
             "/tmp/w" tt "sanitycheckc.c" "int main;" Samples.world_read_only
             _ _ (surjective_pairing _)) _ _ _ Hin).
  - assert (Hin : Popen_safe ["sdcc"; "sanitycheckc.c"; "-o";
                              "sanitycheckc.out"; "--nostdlib"] "/tmp/w"
       (Raise (OSError "[Errno 2] No such file or directory: 'sdcc'"))
       ∈ (Samples.check Samples.native Samples.world_no_compiler).2).
    { vm_compute. do 3 right. left. }
    split; [exact Hin|].
    exact (proj2 (world_failures_propagate Samples.base Samples.native
             "/tmp/w" tt "sanitycheckc.c" "int main;" Samples.world_no_compiler
             _ _ (surjective_pairing _)) _ _ _ Hin).
Defined.

Lemma sanity_check_succeeds_iff_witness :
  (Samples.check Samples.cross_with_wrapper
     (Samples.world_of 0 (RunCompleted 0))).1 = Ok tt
  <-> (exists cmdlist cwd stdo stde,
         Popen_safe cmdlist cwd (Ok (0%Z, stdo, stde))
           ∈ (Samples.check Samples.cross_with_wrapper
                (Samples.world_of 0 (RunCompleted 0))).2)
      /\ ((is_cross Samples.cross_with_wrapper = true
           /\ exe_wrapper Samples.cross_with_wrapper = None)
          \/ exists cmdlist,
               subprocess_run cmdlist (RunCompleted 0)
                 ∈ (Samples.check Samples.cross_with_wrapper
                      (Samples.world_of 0 (RunCompleted 0))).2).
Proof.
  exact (sanity_check_succeeds_iff Samples.base Samples.cross_with_wrapper
           "/tmp/w" tt "sanitycheckc.c" "int main;"
           (Samples.world_of 0 (RunCompleted 0)) _ _ (surjective_pairing _)).
Defined.


Lemma probe_binary_name_witness :
  ((exists ext, PyStr.contains "." ext = false
                /\ "sanitycheckc.c" = "sanitycheckc" +:+ String "." ext)
   \/ (PyStr.contains "." "sanitycheckc.c" = false
       /\ "sanitycheckc" = "sanitycheckc.c"))
  /\ subprocess_run ["ucsim"; "/tmp/w/sanitycheckc_cross.out"] (RunCompleted 0)
       ∈ (Samples.check Samples.cross_with_wrapper
            (Samples.world_of 0 (RunCompleted 0))).2
  /\ last ["ucsim"; "/tmp/w/sanitycheckc_cross.out"]
     = Some "/tmp/w/sanitycheckc_cross.out".
Proof.
  assert (Hstem : (exists ext, PyStr.contains "." ext = false
                     /\ "sanitycheckc.c" = "sanitycheckc" +:+ String "." ext)
                  \/ (PyStr.contains "." "sanitycheckc.c" = false
                      /\ "sanitycheckc" = "sanitycheckc.c")).
  { left. exists "c". split; reflexivity. }
  assert (Hin : subprocess_run ["ucsim"; "/tmp/w/sanitycheckc_cross.out"]
    (RunCompleted 0)
    ∈ (Samples.check Samples.cross_with_wrapper
         (Samples.world_of 0 (RunCompleted 0))).2).
  { vm_compute. do 11 right. left. }
  split; [exact Hstem|]. split; [exact Hin|].
  exact (proj2 (probe_binary_name Samples.base Samples.cross_with_wrapper
           "/tmp/w" tt "sanitycheckc.c" "sanitycheckc" "int main;"
           (Samples.world_of 0 (RunCompleted 0)) Hstem _ _
           (surjective_pairing _)) _ _ Hin).
Defined.

End SanityCheckExtrasWitnesses.

(* ===================================================================== *)
(** ** Build types and include paths: further properties *)
(* ===================================================================== *)

Section FlagExtras.
Import Py Sdcc.
#[local] Arguments String.append : simpl nomatch.

Lemma BUILDTYPE_ARGS_dom :
  dom BUILDTYPE_ARGS
  = list_to_set ["plain"; "debug"; "debugoptimized"; "release"; "minsize";
                 "custom"].
Proof.
  unfold BUILDTYPE_ARGS. cbn [list_to_map foldr uncurry].
  rewrite !dom_insert_L, dom_empty_L. cbn [list_to_set foldr]. done.
Qed.

(** X15. [get_buildtype_args] adds no flag: it returns the empty list
    for the six build types of the table, raises [KeyError] for any
    other key, and so never returns a token. *)
Theorem get_buildtype_args_spec :
  (forall buildtype,
     buildtype ∈ ["plain"; "debug"; "debugoptimized"; "release"; "minsize";
                  "custom"] ->
     get_buildtype_args buildtype = Ok [])
  /\ (forall buildtype,
     buildtype ∉ ["plain"; "debug"; "debugoptimized"; "release"; "minsize";
                  "custom"] ->
     get_buildtype_args buildtype = Raise (KeyError buildtype))
  /\ (forall buildtype args,
     get_buildtype_args buildtype = Ok args -> args = []).
Proof.
  assert (Hin : forall buildtype,
    buildtype ∈ ["plain"; "debug"; "debugoptimized"; "release"; "minsize";
                 "custom"] ->
    get_buildtype_args buildtype = Ok []).
  { intros buildtype Hin.
    repeat (apply elem_of_cons in Hin as [->|Hin]);
      [reflexivity .. | by apply elem_of_nil in Hin]. }
  assert (Hout : forall buildtype,
    buildtype ∉ ["plain"; "debug"; "debugoptimized"; "release"; "minsize";
                 "custom"] ->
    get_buildtype_args buildtype = Raise (KeyError buildtype)).
  { intros buildtype Hout. unfold get_buildtype_args.
    apply getitem_None, not_elem_of_dom. rewrite BUILDTYPE_ARGS_dom.
    by rewrite elem_of_list_to_set. }
  split; [exact Hin|]. split; [exact Hout|].
  intros buildtype args Hok.
  destruct (decide (buildtype ∈ ["plain"; "debug"; "debugoptimized";
                                 "release"; "minsize"; "custom"])) as [H|H].
  - rewrite (Hin _ H) in Hok. by injection Hok.
  - rewrite (Hout _ H) in Hok. discriminate Hok.
Qed.

Lemma get_buildtype_args_spec_witness :
  ("minsize" ∈ ["plain"; "debug"; "debugoptimized"; "release"; "minsize";
                "custom"]
   /\ get_buildtype_args "minsize" = Ok [])
  /\ (("fast" ∉ ["plain"; "debug"; "debugoptimized"; "release"; "minsize";
                 "custom"])
      /\ get_buildtype_args "fast" = Raise (KeyError "fast"))
  /\ (get_buildtype_args "release" = Ok [] /\ ([] : list string) = []).
Proof.
  destruct get_buildtype_args_spec as (Hin & Hout & Hempty).
  assert (H1 : "minsize" ∈ ["plain"; "debug"; "debugoptimized"; "release";
                            "minsize"; "custom"]) by (do 4 right; left).
  assert (H2 : "fast" ∉ ["plain"; "debug"; "debugoptimized"; "release";
                         "minsize"; "custom"]).
  { intros Hf. repeat (apply elem_of_cons in Hf as [Hf|Hf];
      [discriminate Hf|]). by apply elem_of_nil in Hf. }
  assert (H3 : get_buildtype_args "release" = Ok []) by reflexivity.
  split; [|split].
  - split; [exact H1 | exact (Hin _ H1)].
  - split; [exact H2 | exact (Hout _ H2)].
  - split; [exact H3 | exact (Hempty _ _ H3)].
Defined.

(** X16. [get_include_args] keeps paths apart: two calls give the same
    token only for the same path, the empty path counting as [.]. *)
Theorem get_include_args_inj path path' is_system is_system' :
  get_include_args path is_system = get_include_args path' is_system'
  <-> (if bool_decide (path = "") then "." else path)
      = (if bool_decide (path' = "") then "." else path').
Proof.
  unfold get_include_args. split.
  - intros Heq. by simplify_eq/=.
  - by intros ->.
Qed.

End FlagExtras.
